(** * Search tools of the course-material chatbot

    A shallow embedding of [backend/search_tools.py]: the two retrieval
    tools ([CourseSearchTool], [CourseOutlineTool]) and the [ToolManager]
    that registers, dispatches and polls them.

    Conventions of the embedding.
    - Python [str] is [string] (the UTF-8 bytes of the text); [int] is [Z];
      [Optional[T]] is [option T]; f-string formatting of an [int] is
      [pretty] (decimal digits, a leading minus sign for negatives).
    - A method that mutates [self] returns the new object next to its
      result; objects shared by reference live in a heap indexed by
      addresses.
    - A [float] is its IEEE 754 value, a [spec_float]; the tools never read
      the distances of a result.
    - Exceptions are the [Raise] case of [outcome]. *)

From Stdlib Require Import ZArith String Ascii List Sorted Permutation.
From Stdlib Require Import Floats.SpecFloat.
From stdpp Require Import base tactics option list strings pretty gmap sorting.

Set Warnings "-register-all".

Local Open Scope string_scope.
Local Open Scope Z_scope.
Local Open Scope list_scope.

(** ** Python values and outcomes *)

Inductive exn :=
| TypeError
| AttributeError
| ValueError (msg : string).

(** [Unmodelled] marks the dynamically typed inputs this embedding does not
    follow (for instance the [repr] of a nested container inside an
    f-string); no theorem below concludes with it. *)
Inductive outcome (A : Type) :=
| Return (a : A)
| Raise (e : exn)
| Unmodelled.
Arguments Return {A} a.
Arguments Raise {A} e.
Arguments Unmodelled {A}.

(** Sequencing: the first exception ends the computation. *)
#[global] Instance outcome_ret : MRet outcome := fun A a => Return a.
#[global] Instance outcome_bind : MBind outcome := fun A B k x =>
  match x with
  | Return a => k a
  | Raise e => Raise e
  | Unmodelled => Unmodelled
  end.

(** The line feed of ["\n"]. *)
Definition LF : string := String "010"%char EmptyString.

(** Truthiness of a [str] and of an [Optional] value. *)
Definition truthy_str (s : string) : bool :=
  match s with EmptyString => false | String _ _ => true end.

Definition truthy_opt_str (o : option string) : bool :=
  match o with Some s => truthy_str s | None => false end.

(** ** Search results and the vector store (module [vector_store]) *)

(** One chunk's metadata dict, restricted to the two keys this module
    reads, with the value types of the retrieval backend:
    ['course_title'] a string, ['lesson_number'] an integer; [None] is an
    absent key (or, for the lesson number, a stored [None]). *)
Record ChunkMeta := {
  meta_course_title : option string;
  meta_lesson_number : option Z
}.

(** Modelled from the spec: the [SearchResults] dataclass of the module
    [vector_store], which this file does not embed.  Its shape follows the
    data model of the specification (hits or an error string) and the
    constructor calls of the test suite
    ([SearchResults(documents, metadata, distances)], [error] defaulting to
    [None]). *)
Record SearchResults := {
  documents : list string;
  metadata : list ChunkMeta;
  distances : list spec_float;
  error : option string
}.

(** Modelled from the spec: [SearchResults.empty(error_msg)], three empty
    lists and the message. *)
Definition SearchResults_empty (error_msg : string) : SearchResults :=
  {| documents := []; metadata := []; distances := []; error := Some error_msg |}.

(** Modelled from the spec: [SearchResults.is_empty()], no hits. *)
Definition is_empty (r : SearchResults) : bool :=
  match documents r with [] => true | _ :: _ => false end.

(** Modelled from the spec: the two methods of [VectorStore] the search
    tool calls, as the fields of a record.  Retrieval failures never cross
    this boundary as exceptions ([search] turns them into an error result),
    so both are total functions. *)
Record VectorStore := {
  search : string -> option string -> option Z -> SearchResults;
  get_lesson_link : string -> Z -> option string
}.

(** ** CourseSearchTool *)

(** One entry of [last_sources]: the dict [{"text": ...}] with an optional
    ["link"] key. *)
Record Source := {
  text : string;
  link : option string
}.

Record CourseSearchTool := {
  store : VectorStore;
  last_sources : list Source
}.

(** [CourseSearchTool.__init__] *)
Definition CourseSearchTool_init (vector_store : VectorStore) : CourseSearchTool :=
  {| store := vector_store; last_sources := [] |}.

(** A call of [get_lesson_link] made while formatting. *)
Record LinkCall := {
  call_title : string;
  call_lesson : Z
}.

(** The body of the loop of [_format_results] for one [(doc, meta)] pair:
    the rendered block, the source entry and the store calls it made. *)
Definition format_hit (st : VectorStore) (doc : string) (meta : ChunkMeta)
  : string * Source * list LinkCall :=
  let course_title := default "unknown" (meta_course_title meta) in
  let lesson_num := meta_lesson_number meta in
  let header := "[" +:+ course_title in
  let header :=
    match lesson_num with
    | Some n => header +:+ " - Lesson " +:+ pretty n
    | None => header
    end in
  let header := header +:+ "]" in
  let source_text := course_title in
  let source_text :=
    match lesson_num with
    | Some n => source_text +:+ " - Lesson " +:+ pretty n
    | None => source_text
    end in
  let '(lesson_link, calls) :=
    match lesson_num with
    | Some n =>
        if bool_decide (course_title <> "unknown")
        then (get_lesson_link st course_title n,
              [{| call_title := course_title; call_lesson := n |}])
        else (None, [])
    | None => (None, [])
    end in
  let source_info :=
    if truthy_opt_str lesson_link
    then {| text := source_text; link := lesson_link |}
    else {| text := source_text; link := None |} in
  (header +:+ LF +:+ doc, source_info, calls).

(** The loop of [_format_results]: [formatted], [sources] and the call log
    grow by one append per pair of [zip(documents, metadata)]. *)
Fixpoint format_loop (st : VectorStore) (hits : list (string * ChunkMeta))
    (formatted : list string) (sources : list Source) (calls : list LinkCall)
  : list string * list Source * list LinkCall :=
  match hits with
  | [] => (formatted, sources, calls)
  | (doc, meta) :: rest =>
      let '(block, source_info, cs) := format_hit st doc meta in
      format_loop st rest (formatted ++ [block]) (sources ++ [source_info])
                  (calls ++ cs)
  end.

(** What a method of the tool hands back: its return value, the tool after
    the call and the [get_lesson_link] calls it made. *)
Record Ran := {
  returned : string;
  self_after : CourseSearchTool;
  link_calls : list LinkCall
}.

(** [CourseSearchTool._format_results] *)
Definition _format_results (self : CourseSearchTool) (results : SearchResults) : Ran :=
  let '(formatted, sources, calls) :=
    format_loop (store self) (combine (documents results) (metadata results))
                [] [] [] in
  {| returned := String.concat (LF +:+ LF) formatted;
     self_after := {| store := store self; last_sources := sources |};
     link_calls := calls |}.

(** [CourseSearchTool.execute] *)
Definition execute (self : CourseSearchTool) (query : string)
    (course_name : option string) (lesson_number : option Z) : Ran :=
  let results := search (store self) query course_name lesson_number in
  let no_error :=
    if is_empty results then
      let filter_info := "" in
      let filter_info :=
        match course_name with
        | Some c =>
            if truthy_str c then filter_info +:+ " in course '" +:+ c +:+ "'"
            else filter_info
        | None => filter_info
        end in
      let filter_info :=
        match lesson_number with
        | Some n =>
            if negb (n =? 0) then filter_info +:+ " in lesson " +:+ pretty n
            else filter_info
        | None => filter_info
        end in
      {| returned := "No relevant content found" +:+ filter_info +:+ ".";
         self_after := self; link_calls := [] |}
    else _format_results self results in
  match error results with
  | Some e =>
      if truthy_str e
      then {| returned := e; self_after := self; link_calls := [] |}
      else no_error
  | None => no_error
  end.

(** ** Dynamically typed data: dicts, tool definitions, keyword arguments *)

(** The values of a JSON document as Python holds them after [json.loads],
    also used for tool definitions and keyword arguments.  Numbers are the
    integers; documents with fractional numbers are outside the embedding.
    A dict is an association list in which the first binding of a key is
    the dict's binding. *)
Inductive json :=
| JNull
| JBool (b : bool)
| JInt (n : Z)
| JStr (s : string)
| JArr (items : list json)
| JObj (fields : list (string * json)).

(** [d.get(k)], [None] when the key is absent. *)
Fixpoint dict_get {V} (d : list (string * V)) (k : string) : option V :=
  match d with
  | [] => None
  | (k', v) :: rest => if decide (k' = k) then Some v else dict_get rest k
  end.

(** [d[k] = v] on an insertion-ordered dict: an existing key keeps its
    place and takes the new value, a new key goes to the end. *)
Fixpoint dict_set {V} (d : list (string * V)) (k : string) (v : V)
  : list (string * V) :=
  match d with
  | [] => [(k, v)]
  | (k', v') :: rest =>
      if decide (k' = k) then (k', v) :: rest else (k', v') :: dict_set rest k v
  end.

(** [d.values()] *)
Definition dict_values {V} (d : list (string * V)) : list V := map snd d.

(** Truthiness of a value. *)
Definition truthy (v : json) : bool :=
  match v with
  | JNull => false
  | JBool b => b
  | JInt n => negb (n =? 0)
  | JStr s => truthy_str s
  | JArr items => match items with [] => false | _ => true end
  | JObj fields => match fields with [] => false | _ => true end
  end.

(** [str(v)], as an f-string renders [{v}], for the scalar values. *)
Definition py_str (v : json) : outcome string :=
  match v with
  | JNull => Return "None"
  | JBool true => Return "True"
  | JBool false => Return "False"
  | JInt n => Return (pretty n)
  | JStr s => Return s
  | JArr _ | JObj _ => Unmodelled
  end.

(** ** The Tool interface and the tool objects *)

(** The abstract base class [Tool]: a definition and an [execute] taking
    keyword arguments, which may change the tool. *)
Class Tool (T : Type) := {
  get_tool_definition : T -> list (string * json);
  tool_execute : T -> list (string * json) -> outcome string * T
}.

(** [CourseSearchTool.get_tool_definition] *)
Definition CourseSearchTool_definition : list (string * json) :=
  [("name", JStr "search_course_content");
   ("description",
    JStr "Search course materials with smart course name matching and lesson filtering");
   ("input_schema", JObj
     [("type", JStr "object");
      ("properties", JObj
        [("query", JObj
           [("type", JStr "string");
            ("description", JStr "What to search for in the course content")]);
         ("course_name", JObj
           [("type", JStr "string");
            ("description",
             JStr "Course title (partial matches work, e.g. 'MCP', 'Introduction')")]);
         ("lesson_number", JObj
           [("type", JStr "integer");
            ("description",
             JStr "Specific lesson number to search within (e.g. 1, 2, 3)")])]);
      ("required", JArr [JStr "query"])])].

(** The parameter list of [CourseSearchTool.execute] applied to keyword
    arguments: an unexpected keyword or a missing [query] is a
    [TypeError]; [course_name] and [lesson_number] default to [None].
    Arguments of other types than the annotated ones are not followed. *)
Definition bind_execute_kwargs (kwargs : list (string * json))
  : outcome (string * option string * option Z) :=
  if forallb (fun kv => bool_decide (kv.1 ∈ ["query"; "course_name"; "lesson_number"]))
             kwargs
  then
    query ← match dict_get kwargs "query" with
            | None => Raise TypeError
            | Some (JStr q) => Return q
            | Some _ => Unmodelled
            end;
    course_name ← match dict_get kwargs "course_name" with
                  | None | Some JNull => Return None
                  | Some (JStr c) => Return (Some c)
                  | Some _ => Unmodelled
                  end;
    lesson_number ← match dict_get kwargs "lesson_number" with
                    | None | Some JNull => Return None
                    | Some (JInt n) => Return (Some n)
                    | Some _ => Unmodelled
                    end;
    Return (query, course_name, lesson_number)
  else Raise TypeError.

#[global] Instance CourseSearchTool_Tool : Tool CourseSearchTool := {
  get_tool_definition _ := CourseSearchTool_definition;
  tool_execute self kwargs :=
    match bind_execute_kwargs kwargs with
    | Return (query, course_name, lesson_number) =>
        let r := execute self query course_name lesson_number in
        (Return (returned r), self_after r)
    | Raise e => (Raise e, self)
    | Unmodelled => (Unmodelled, self)
    end
}.

(** Any other implementation of the interface whose [execute] leaves the
    object as it is: its definition, what [execute] answers, and its
    [last_sources] attribute when it has one.  [CourseOutlineTool] is such
    a tool (no [last_sources]); so is the nameless double of the tests. *)
Record OtherTool := {
  other_definition : list (string * json);
  other_execute : list (string * json) -> outcome string;
  other_last_sources : option (list Source)
}.

#[global] Instance OtherTool_Tool : Tool OtherTool := {
  get_tool_definition t := other_definition t;
  tool_execute t kwargs := (other_execute t kwargs, t)
}.

(** [CourseOutlineTool.get_tool_definition] *)
Definition CourseOutlineTool_definition : list (string * json) :=
  [("name", JStr "get_course_outline");
   ("description",
    JStr "Get complete course outline including title, link, and all lessons with their titles and links");
   ("input_schema", JObj
     [("type", JStr "object");
      ("properties", JObj
        [("course_name", JObj
           [("type", JStr "string");
            ("description",
             JStr "Course title or partial name (e.g. 'MCP', 'Introduction', etc.)")])]);
      ("required", JArr [JStr "course_name"])])].

Inductive tool_obj :=
| SearchObj (t : CourseSearchTool)
| OtherObj (t : OtherTool).

Definition obj_definition (o : tool_obj) : list (string * json) :=
  match o with
  | SearchObj t => get_tool_definition t
  | OtherObj t => get_tool_definition t
  end.

Definition obj_execute (o : tool_obj) (kwargs : list (string * json))
  : outcome string * tool_obj :=
  match o with
  | SearchObj t => let '(r, t') := tool_execute t kwargs in (r, SearchObj t')
  | OtherObj t => let '(r, t') := tool_execute t kwargs in (r, OtherObj t')
  end.

(** [tool.last_sources] when [hasattr(tool, 'last_sources')]. *)
Definition obj_last_sources (o : tool_obj) : option (list Source) :=
  match o with
  | SearchObj t => Some (last_sources t)
  | OtherObj t => other_last_sources t
  end.

(** [tool.last_sources = sources] *)
Definition obj_set_last_sources (o : tool_obj) (sources : list Source) : tool_obj :=
  match o with
  | SearchObj t => SearchObj {| store := store t; last_sources := sources |}
  | OtherObj t =>
      OtherObj {| other_definition := other_definition t;
                  other_execute := other_execute t;
                  other_last_sources := Some sources |}
  end.

(** ** ToolManager *)

(** Tools are shared by reference: the manager's dict holds addresses into
    the heap of tool objects. *)
Abbreviation loc := nat (only parsing).
Abbreviation heap := (gmap nat tool_obj) (only parsing).

Record ToolManager := {
  tools : list (string * loc)
}.

(** [ToolManager.__init__] *)
Definition ToolManager_init : ToolManager := {| tools := [] |}.

(** [ToolManager.register_tool].  A name that is neither a string nor
    falsy is a [TypeError] when unhashable and is not followed otherwise. *)
Definition register_tool (h : heap) (self : ToolManager) (tool : loc)
  : outcome ToolManager :=
  match h !! tool with
  | None => Unmodelled
  | Some o =>
      let tool_def := obj_definition o in
      let tool_name := default JNull (dict_get tool_def "name") in
      if negb (truthy tool_name)
      then Raise (ValueError "Tool must have a 'name' in its definition")
      else
        match tool_name with
        | JStr name => Return {| tools := dict_set (tools self) name tool |}
        | JArr _ | JObj _ => Raise TypeError
        | _ => Unmodelled
        end
  end.

(** [ToolManager.get_tool_definitions] *)
Definition get_tool_definitions (h : heap) (self : ToolManager)
  : list (list (string * json)) :=
  omap (fun a => obj_definition <$> h !! a) (dict_values (tools self)).

(** The keyword arguments of a call [execute_tool(name, **kwargs)] collide
    with the method's own parameters when one of them is named [self] or
    [tool_name]. *)
Definition collides (kwargs : list (string * json)) : bool :=
  existsb (fun kv => bool_decide (kv.1 ∈ ["self"; "tool_name"])) kwargs.

(** [ToolManager.execute_tool]: the answer and the heap after the call.
    With colliding keywords the call is a [TypeError] (multiple values for
    a parameter) before the body runs. *)
Definition execute_tool (h : heap) (self : ToolManager) (tool_name : string)
    (kwargs : list (string * json)) : outcome string * heap :=
  if collides kwargs then (Raise TypeError, h)
  else
    match dict_get (tools self) tool_name with
    | None => (Return ("Tool '" +:+ tool_name +:+ "' not found"), h)
    | Some a =>
        match h !! a with
        | None => (Unmodelled, h)
        | Some o => let '(r, o') := obj_execute o kwargs in (r, <[a := o']> h)
        end
    end.

(** The loop of [get_last_sources] over [self.tools.values()]. *)
Fixpoint first_sources (h : heap) (values : list loc) : list Source :=
  match values with
  | [] => []
  | a :: rest =>
      match h !! a ≫= obj_last_sources with
      | Some ((_ :: _) as sources) => sources
      | _ => first_sources h rest
      end
  end.

(** [ToolManager.get_last_sources] *)
Definition get_last_sources (h : heap) (self : ToolManager) : list Source :=
  first_sources h (dict_values (tools self)).

(** The loop of [reset_sources] over [self.tools.values()]. *)
Fixpoint reset_loop (h : heap) (values : list loc) : heap :=
  match values with
  | [] => h
  | a :: rest =>
      match h !! a with
      | Some o =>
          match obj_last_sources o with
          | Some _ => reset_loop (<[a := obj_set_last_sources o []]> h) rest
          | None => reset_loop h rest
          end
      | None => reset_loop h rest
      end
  end.

(** [ToolManager.reset_sources]: the heap after the call. *)
Definition reset_sources (h : heap) (self : ToolManager) : heap :=
  reset_loop h (dict_values (tools self)).

(** ** CourseOutlineTool._format_outline *)

(** A catalog entry's metadata dict, restricted to the keys
    [_format_outline] reads; all four hold strings in the catalog, [None]
    is an absent key. *)
Record CourseMeta := {
  title : option string;
  course_link : option string;
  instructor : option string;
  lessons_json : option string
}.

(** [sorted(items, key=...)] is stable: equal keys keep their order.
    [le] compares the two items by key. *)
Fixpoint insert_sorted {A} (le : A -> A -> bool) (x : A) (l : list A) : list A :=
  match l with
  | [] => [x]
  | y :: rest => if le x y then x :: y :: rest else y :: insert_sorted le x rest
  end.

Definition stable_sort {A} (le : A -> A -> bool) (l : list A) : list A :=
  foldr (insert_sorted le) [] l.

(** The key [x.get('lesson_number', 0)] of the sort. *)
Definition lesson_key (lesson : list (string * json)) : json :=
  default (JInt 0) (dict_get lesson "lesson_number").

(** Keys Python compares as numbers ([bool] is an [int]). *)
Definition key_number (k : json) : option Z :=
  match k with
  | JInt n => Some n
  | JBool b => Some (if b then 1 else 0)
  | _ => None
  end.

Definition key_string (k : json) : option string :=
  match k with JStr s => Some s | _ => None end.

Definition is_array (k : json) : bool :=
  match k with JArr _ => true | _ => false end.

Definition le_by_number (a b : list (string * json)) : bool :=
  default 0 (key_number (lesson_key a)) <=? default 0 (key_number (lesson_key b)).

Definition le_by_string (a b : list (string * json)) : bool :=
  String.leb (default "" (key_string (lesson_key a)))
             (default "" (key_string (lesson_key b))).

(** The elements of the list must be dicts: [x.get] on anything else is an
    [AttributeError], raised while the keys are computed. *)
Definition as_dict (v : json) : outcome (list (string * json)) :=
  match v with
  | JObj fields => Return fields
  | _ => Raise AttributeError
  end.

Fixpoint all_dicts (items : list json) : outcome (list (list (string * json))) :=
  match items with
  | [] => Return []
  | v :: rest =>
      d ← as_dict v;
      ds ← all_dicts rest;
      Return (d :: ds)
  end.

(** [sorted(lessons, key=lambda x: x.get('lesson_number', 0))] on a list.
    Numbers compare with numbers and strings with strings; with two or
    more lessons any other mix of keys is a [TypeError] of [<].  Keys that
    are lists compare element by element and are not followed. *)
Definition sorted_lessons (items : list json)
  : outcome (list (list (string * json))) :=
  ds ← all_dicts items;
  let keys := map lesson_key ds in
  match ds with
  | [] | [_] => Return ds
  | _ =>
      if forallb (fun k => bool_decide (is_Some (key_number k))) keys
      then Return (stable_sort le_by_number ds)
      else if forallb (fun k => bool_decide (is_Some (key_string k))) keys
      then Return (stable_sort le_by_string ds)
      else if existsb is_array keys then Unmodelled
      else Raise TypeError
  end.

(** The body of the lesson loop: the parts appended for one lesson. *)
Definition lesson_parts (lesson : list (string * json)) : outcome (list string) :=
  let lesson_num := default (JStr "N/A") (dict_get lesson "lesson_number") in
  let lesson_title :=
    default (JStr "Untitled Lesson") (dict_get lesson "lesson_title") in
  let lesson_link := default (JStr "") (dict_get lesson "lesson_link") in
  num ← py_str lesson_num;
  ttl ← py_str lesson_title;
  if truthy lesson_link then
    lnk ← py_str lesson_link;
    Return ["• Lesson " +:+ num +:+ ": " +:+ ttl; "  Link: " +:+ lnk]
  else
    Return ["• Lesson " +:+ num +:+ ": " +:+ ttl].

Fixpoint lessons_loop (lessons : list (list (string * json)))
  : outcome (list string) :=
  match lessons with
  | [] => Return []
  | lesson :: rest =>
      ps ← lesson_parts lesson;
      more ← lessons_loop rest;
      Return (ps ++ more)
  end.

(** The parts before the lessons section: title, course link, instructor. *)
Definition course_header (metadata : CourseMeta) : list string :=
  let course_title := default "Unknown Course" (title metadata) in
  let course_link := default "" (course_link metadata) in
  let instructor := default "" (instructor metadata) in
  let outline_parts := [] in
  let outline_parts :=
    if truthy_str course_link
    then outline_parts ++ ["**" +:+ course_title +:+ "**"]
                       ++ ["Course Link: " +:+ course_link]
    else outline_parts ++ ["**" +:+ course_title +:+ "**"] in
  if truthy_str instructor
  then outline_parts ++ ["Instructor: " +:+ instructor]
  else outline_parts.

(** The lessons section for the value [lessons] that [json.loads] gave:
    [len] of a number or a boolean is a [TypeError]; iterating a string or
    a dict yields strings, on which [x.get] is an [AttributeError]. *)
Definition lessons_section (lessons : json) : outcome (list string) :=
  if truthy lessons then
    match lessons with
    | JArr items =>
        let count := pretty (Z.of_nat (length items)) in
        sorted ← sorted_lessons items;
        ps ← lessons_loop sorted;
        Return ((LF +:+ "**Course Outline (" +:+ count +:+ " lessons):**") :: ps)
    | JStr _ | JObj _ => Raise AttributeError
    | _ => Raise TypeError
    end
  else Return [LF +:+ "No lesson information available."].

Section FormatOutline.

(** [json.loads] of the standard library on a string: the value, or
    [None] where it raises [JSONDecodeError]. *)
Variable json_loads : string -> option json.

(** [CourseOutlineTool._format_outline] *)
Definition _format_outline (metadata : CourseMeta) : outcome string :=
  let lessons_json := default "[]" (lessons_json metadata) in
  let lessons :=
    match json_loads lessons_json with
    | Some v => v
    | None => JArr []
    end in
  let outline_parts := course_header metadata in
  section ← lessons_section lessons;
  Return (String.concat LF (outline_parts ++ section)).

End FormatOutline.

(** ** The specification's wording, as definitions

    What the specification says the tools produce, written after its
    sentences; the theorems below compare the code with it. *)

(** The hits of a result: the pairs of [zip(documents, metadata)]. *)
Definition hits (r : SearchResults) : list (string * ChunkMeta) :=
  combine (documents r) (metadata r).

(** The header [[<course_title>], [ - Lesson <n>] when a lesson number is
    present, []]]; an absent title reads [unknown]. *)
Definition hit_label (meta : ChunkMeta) : string :=
  default "unknown" (meta_course_title meta) +:+
  match meta_lesson_number meta with
  | Some n => " - Lesson " +:+ pretty n
  | None => ""
  end.

Definition hit_block (hit : string * ChunkMeta) : string :=
  "[" +:+ hit_label hit.2 +:+ "]" +:+ LF +:+ hit.1.

(** The citation of a hit: the label, and the lesson link the store gives
    when the hit has a lesson number and a title other than [unknown]. *)
Definition hit_citation (st : VectorStore) (hit : string * ChunkMeta) : Source :=
  {| text := hit_label hit.2;
     link :=
       match meta_lesson_number hit.2 with
       | Some n =>
           let course_title := default "unknown" (meta_course_title hit.2) in
           if bool_decide (course_title <> "unknown") then
             match get_lesson_link st course_title n with
             | Some url => if truthy_str url then Some url else None
             | None => None
             end
           else None
       | None => None
       end |}.

(** The filter suffixes of the empty-result message for the filters that
    were supplied. *)
Definition supplied_course (course_name : option string) : string :=
  match course_name with
  | Some c => " in course '" +:+ c +:+ "'"
  | None => ""
  end.

Definition supplied_lesson (lesson_number : option Z) : string :=
  match lesson_number with
  | Some n => " in lesson " +:+ pretty n
  | None => ""
  end.

(** The same suffixes for the filters that are supplied and truthy: a
    non-empty course name, a lesson number other than zero. *)
Definition truthy_course (course_name : option string) : string :=
  match course_name with
  | Some c => if truthy_str c then " in course '" +:+ c +:+ "'" else ""
  | None => ""
  end.

Definition truthy_lesson (lesson_number : option Z) : string :=
  match lesson_number with
  | Some n => if negb (n =? 0) then " in lesson " +:+ pretty n else ""
  | None => ""
  end.

(** A tool as its constructor leaves it: [CourseSearchTool.__init__] sets
    [last_sources] to the empty list, [CourseOutlineTool.__init__] sets no
    such attribute. *)
Definition constructed (o : tool_obj) : Prop :=
  match o with
  | SearchObj t => t = CourseSearchTool_init (store t)
  | OtherObj t => other_last_sources t = None
  end.

(** What [reset_sources] does to one tool it visits: an object with a
    [last_sources] attribute gets the empty list, any other stays as it is. *)
Definition cleared (o : tool_obj) : tool_obj :=
  match obj_last_sources o with
  | Some _ => obj_set_last_sources o []
  | None => o
  end.

(** The lines of a text, split at the line feeds. *)
Fixpoint lines (s : string) : list string :=
  match s with
  | EmptyString => [EmptyString]
  | String c rest =>
      if Ascii.eqb c "010"%char then EmptyString :: lines rest
      else
        match lines rest with
        | l :: more => String c l :: more
        | [] => [String c EmptyString]
        end
  end.

(** A lesson of the catalog's lesson list: number, title and, when there is
    one, the link. *)
Record Lesson := {
  lesson_number : Z;
  lesson_title : string;
  lesson_link : option string
}.

(** A dict of the parsed lesson list read as a lesson: an integer
    ['lesson_number'], a string ['lesson_title'], and a ['lesson_link']
    that is a string, [null] or absent; an empty link is no link. *)
Definition decode_lesson_dict (d : list (string * json)) : option Lesson :=
  match dict_get d "lesson_number", dict_get d "lesson_title" with
  | Some (JInt n), Some (JStr t) =>
      match dict_get d "lesson_link" with
      | None | Some JNull =>
          Some {| lesson_number := n; lesson_title := t; lesson_link := None |}
      | Some (JStr u) =>
          Some {| lesson_number := n; lesson_title := t;
                  lesson_link := if truthy_str u then Some u else None |}
      | Some _ => None
      end
  | _, _ => None
  end.

Definition decode_lesson (v : json) : option Lesson :=
  match v with
  | JObj d => decode_lesson_dict d
  | _ => None
  end.

(** The bullet of a lesson, with its link line when it has a link. *)
Definition lesson_bullet (l : Lesson) : list string :=
  ("• Lesson " +:+ pretty (lesson_number l) +:+ ": " +:+ lesson_title l) ::
  match lesson_link l with
  | Some u => ["  Link: " +:+ u]
  | None => []
  end.

Definition le_lesson (a b : Lesson) : bool :=
  lesson_number a <=? lesson_number b.

(** The header that counts the lessons. *)
Definition count_header (n : nat) : string :=
  LF +:+ "**Course Outline (" +:+ pretty (Z.of_nat n) +:+ " lessons):**".

(** ** Sample data for the examples *)

(** Two hits, as in scenario C of the specification, at distances 0.125
    and 0.25. *)
Definition two_hits : SearchResults :=
  {| documents := ["MCP connects models to tools."; "HTML describes pages."];
     metadata :=
       [{| meta_course_title := Some "Intro to MCP"; meta_lesson_number := Some 1 |};
        {| meta_course_title := Some "Web Dev"; meta_lesson_number := Some 2 |}];
     distances := [S754_finite false 4503599627370496 (-55);
                   S754_finite false 4503599627370496 (-54)];
     error := None |}.

Definition no_hits : SearchResults :=
  {| documents := []; metadata := []; distances := []; error := None |}.

(** A store that finds the two hits for the query [mcp], fails for the
    query [down], fails with an empty message for [blank], and finds
    nothing otherwise. *)
Definition sample_store : VectorStore :=
  {| search query _ _ :=
       if decide (query = "mcp") then two_hits
       else if decide (query = "down")
       then SearchResults_empty "Database connection failed"
       else if decide (query = "blank") then SearchResults_empty ""
       else no_hits;
     get_lesson_link course_title n :=
       if decide (course_title = "Intro to MCP" /\ n = 1)
       then Some "https://example.com/lesson1"
       else None |}.

(** Tools for the registry examples: an outline tool, a tool whose
    definition has no name (the double of the test suite), and a second
    tool that calls itself [search_course_content]. *)
Definition outline_tool : OtherTool :=
  {| other_definition := CourseOutlineTool_definition;
     other_execute _ := Return "No course found matching 'x'";
     other_last_sources := None |}.

Definition nameless_tool : OtherTool :=
  {| other_definition := [("description", JStr "Bad tool")];
     other_execute _ := Return "bad";
     other_last_sources := None |}.

Definition rival_tool : OtherTool :=
  {| other_definition := [("name", JStr "search_course_content")];
     other_execute _ := Return "rival";
     other_last_sources := None |}.

Definition sample_heap : gmap nat tool_obj :=
  {[ 0%nat := SearchObj (CourseSearchTool_init sample_store);
     1%nat := OtherObj outline_tool;
     2%nat := OtherObj nameless_tool;
     3%nat := OtherObj rival_tool ]}.

(** The manager after registering the search tool and the outline tool. *)
Definition sample_manager : ToolManager :=
  {| tools := [("search_course_content", 0%nat); ("get_course_outline", 1%nat)] |}.

(** The heap of the examples after a search with two hits: the search tool
    holds two citations, which the manager reports. *)
Definition heap_after_search : gmap nat tool_obj :=
  (execute_tool sample_heap sample_manager "search_course_content"
     [("query", JStr "mcp")]).2.

(** A catalog entry with two lessons, stored out of order, and one whose
    lesson list is not JSON. *)
Definition quoted (s : string) : string :=
  String "034"%char EmptyString +:+ s +:+ String "034"%char EmptyString.

Definition two_lessons_text : string :=
  "[{" +:+ quoted "lesson_number" +:+ ": 2, " +:+
  quoted "lesson_title" +:+ ": " +:+ quoted "Setup" +:+ ", " +:+
  quoted "lesson_link" +:+ ": " +:+ quoted "https://example.com/l2" +:+ "}, {" +:+
  quoted "lesson_number" +:+ ": 1, " +:+
  quoted "lesson_title" +:+ ": " +:+ quoted "Intro" +:+ ", " +:+
  quoted "lesson_link" +:+ ": null}]".

Definition mcp_course : CourseMeta :=
  {| title := Some "Intro to MCP";
     course_link := Some "https://example.com/mcp";
     instructor := Some "Ada";
     lessons_json := Some two_lessons_text |}.

Definition broken_course : CourseMeta :=
  {| title := Some "Web Dev";
     course_link := None;
     instructor := None;
     lessons_json := Some "[{oops" |}.

(** What [json.loads] gives on the texts of the examples: the empty list,
    the two lessons, and a decode error on the broken text.  The examples
    apply it to no other text. *)
Definition sample_loads (s : string) : option json :=
  if decide (s = "[]") then Some (JArr [])
  else if decide (s = two_lessons_text) then
    Some (JArr
      [JObj [("lesson_number", JInt 2); ("lesson_title", JStr "Setup");
             ("lesson_link", JStr "https://example.com/l2")];
       JObj [("lesson_number", JInt 1); ("lesson_title", JStr "Intro");
             ("lesson_link", JNull)]])
  else None.

(** ** Runs of the search tool and of the registry *)

(** The [get_lesson_link] call a hit causes: one when the hit has a lesson
    number and a title other than [unknown], none otherwise. *)
Definition hit_lookups (hit : string * ChunkMeta) : list LinkCall :=
  match meta_lesson_number hit.2 with
  | Some n =>
      let course_title := default "unknown" (meta_course_title hit.2) in
      if bool_decide (course_title <> "unknown")
      then [{| call_title := course_title; call_lesson := n |}]
      else []
  | None => []
  end.

(** A citation with a link names a lesson of a course with a known title,
    and its link is not the empty string. *)
Definition linked_source_ok (s : Source) : Prop :=
  match link s with
  | Some url =>
      url <> "" /\
      exists (course_title : string) (n : Z),
        course_title <> "unknown" /\
        text s = course_title +:+ " - Lesson " +:+ pretty n
  | None => True
  end.

(** The arguments of one call of [CourseSearchTool.execute]. *)
Record SearchCall := {
  arg_query : string;
  arg_course_name : option string;
  arg_lesson_number : option Z
}.

(** The tool after a sequence of calls of [execute], first call first. *)
Definition run_calls (calls : list SearchCall) (self : CourseSearchTool)
  : CourseSearchTool :=
  fold_left
    (fun tool c =>
       self_after (execute tool (arg_query c) (arg_course_name c)
                           (arg_lesson_number c)))
    calls self.

(** The manager after [register_tool] on each address in turn; the first
    registration that raises ends the sequence. *)
Fixpoint register_all (h : gmap nat tool_obj) (self : ToolManager)
    (new_tools : list nat) : outcome ToolManager :=
  match new_tools with
  | [] => Return self
  | tool :: rest =>
      self' ← register_tool h self tool;
      register_all h self' rest
  end.

(** A registry entry is sound when its name is a non-empty string and is
    the name in the definition of the live tool it points to. *)
Definition entry_ok (h : gmap nat tool_obj) (entry : string * nat) : Prop :=
  entry.1 <> "" /\
  exists o, h !! entry.2 = Some o /\
            dict_get (obj_definition o) "name" = Some (JStr entry.1).

(** A store whose search answers with two documents and the metadata of
    the first only. *)
Definition lopsided_store : VectorStore :=
  {| search _ _ _ :=
       {| documents := ["MCP connects models to tools."; "HTML describes pages."];
          metadata :=
            [{| meta_course_title := Some "Intro to MCP";
                meta_lesson_number := Some 1 |}];
          distances := [];
          error := None |};
     get_lesson_link _ _ := None |}.

(** ** Lessons with missing fields *)

(** A lesson dict read leniently, as the loop of [_format_outline] reads
    it: the number and the title may be absent. *)
Record LooseLesson := {
  loose_number : option Z;
  loose_title : option string;
  loose_link : option string
}.

Definition decode_loose_dict (d : list (string * json)) : option LooseLesson :=
  number ← match dict_get d "lesson_number" with
            | None => Some None
            | Some (JInt n) => Some (Some n)
            | Some _ => None
            end;
  ttl ← match dict_get d "lesson_title" with
         | None => Some None
         | Some (JStr t) => Some (Some t)
         | Some _ => None
         end;
  lnk ← match dict_get d "lesson_link" with
         | None | Some JNull => Some None
         | Some (JStr u) => Some (if truthy_str u then Some u else None)
         | Some _ => None
         end;
  Some {| loose_number := number; loose_title := ttl; loose_link := lnk |}.

Definition decode_loose (v : json) : option LooseLesson :=
  match v with
  | JObj d => decode_loose_dict d
  | _ => None
  end.

(** The bullet of such a lesson: [N/A] for a missing number,
    [Untitled Lesson] for a missing title. *)
Definition loose_bullet (l : LooseLesson) : list string :=
  ("• Lesson " +:+
   match loose_number l with Some n => pretty n | None => "N/A" end +:+
   ": " +:+ default "Untitled Lesson" (loose_title l)) ::
  match loose_link l with
  | Some u => ["  Link: " +:+ u]
  | None => []
  end.

(** The order of the sort: a missing number counts as zero. *)
Definition le_loose (a b : LooseLesson) : bool :=
  default 0 (loose_number a) <=? default 0 (loose_number b).

(** ** CourseOutlineTool.execute *)

(** Modelled from the spec: what [self.store.course_catalog.get(ids=[t])]
    gives the outline tool.  The call may raise, with [str(e)] the message;
    its result may be falsy; otherwise [results['metadatas']] is a list
    whose entries are metadata dicts, a falsy entry ([None] or an empty
    dict) being [None]. *)
Inductive CatalogGet :=
| GetRaises (message : string)
| GetFalsy
| GetMetadatas (metadatas : list (option CourseMeta)).

(** Modelled from the spec: the two members of [VectorStore] the outline
    tool uses.  [_resolve_course_name] gives the canonical title or
    [None]; it handles its backend's failures itself. *)
Record CatalogStore := {
  _resolve_course_name : string -> option string;
  course_catalog_get : string -> CatalogGet
}.

Record CourseOutlineTool := {
  outline_store : CatalogStore
}.

Section OutlineExecute.

(** [json.loads], and [str(e)] for the exceptions [_format_outline] lets
    escape. *)
Variable json_loads : string -> option json.
Variable exn_text : exn -> string.

(** [CourseOutlineTool.execute] *)
Definition CourseOutlineTool_execute (self : CourseOutlineTool)
    (course_name : string) : outcome string :=
  let resolved_course_title :=
    _resolve_course_name (outline_store self) course_name in
  if negb (truthy_opt_str resolved_course_title)
  then Return ("No course found matching '" +:+ course_name +:+ "'")
  else
    let resolved_course_title := default "" resolved_course_title in
    match course_catalog_get (outline_store self) resolved_course_title with
    | GetRaises message =>
        Return ("Error retrieving course outline: " +:+ message)
    | GetFalsy =>
        Return ("No metadata found for course '" +:+ resolved_course_title +:+ "'")
    | GetMetadatas [] | GetMetadatas (None :: _) =>
        Return ("No metadata found for course '" +:+ resolved_course_title +:+ "'")
    | GetMetadatas (Some metadata :: _) =>
        match _format_outline json_loads metadata with
        | Return outline => Return outline
        | Raise e => Return ("Error retrieving course outline: " +:+ exn_text e)
        | Unmodelled => Unmodelled
        end
    end.

End OutlineExecute.

(** A catalog with the two courses of the examples, and a course whose
    entry cannot be fetched. *)
Definition sample_catalog : CatalogStore :=
  {| _resolve_course_name name :=
       if decide (name = "MCP") then Some "Intro to MCP"
       else if decide (name = "web") then Some "Web Dev"
       else if decide (name = "lost") then Some "Lost Course"
       else None;
     course_catalog_get course_title :=
       if decide (course_title = "Intro to MCP") then GetMetadatas [Some mcp_course]
       else if decide (course_title = "Web Dev") then GetMetadatas [Some broken_course]
       else if decide (course_title = "Lost Course") then GetRaises "connection lost"
       else GetMetadatas [] |}.

(** A stand-in for [str(e)] in the examples. *)
Definition sample_exn_text (e : exn) : string :=
  match e with
  | TypeError => "type error"
  | AttributeError => "attribute error"
  | ValueError msg => msg
  end.

(** A catalog entry whose lesson list parses to a list holding a number. *)
Definition odd_course : CourseMeta :=
  {| title := Some "Odd";
     course_link := None;
     instructor := None;
     lessons_json := Some "[7]" |}.

(** A catalog in which every name resolves to that entry. *)
Definition odd_catalog : CatalogStore :=
  {| _resolve_course_name _ := Some "Odd";
     course_catalog_get _ := GetMetadatas [Some odd_course] |}.

(** A catalog entry whose lesson list is the JSON [null]. *)
Definition null_course : CourseMeta :=
  {| title := Some "Null";
     course_link := None;
     instructor := None;
     lessons_json := Some "null" |}.

(** A catalog entry with two lessons, the second without number, title
    and link. *)
Definition sparse_lessons_text : string :=
  "[{" +:+ quoted "lesson_number" +:+ ": 3, " +:+
  quoted "lesson_title" +:+ ": " +:+ quoted "Wrap-up" +:+ "}, {}]".

Definition sparse_course : CourseMeta :=
  {| title := None;
     course_link := None;
     instructor := None;
     lessons_json := Some sparse_lessons_text |}.

(** A catalog entry with two lessons of the same number, stored in
    order. *)
Definition ordered_lessons_text : string :=
  "[{" +:+ quoted "lesson_number" +:+ ": 1, " +:+
  quoted "lesson_title" +:+ ": " +:+ quoted "Intro" +:+ "}, {" +:+
  quoted "lesson_number" +:+ ": 1, " +:+
  quoted "lesson_title" +:+ ": " +:+ quoted "Intro, continued" +:+ "}]".

Definition ordered_course : CourseMeta :=
  {| title := Some "Ordered";
     course_link := None;
     instructor := None;
     lessons_json := Some ordered_lessons_text |}.

(** The entry [mcp_course] with its two lessons stored the other way
    round. *)
Definition two_lessons_reordered_text : string :=
  "[{" +:+ quoted "lesson_number" +:+ ": 1, " +:+
  quoted "lesson_title" +:+ ": " +:+ quoted "Intro" +:+ ", " +:+
  quoted "lesson_link" +:+ ": null}, {" +:+
  quoted "lesson_number" +:+ ": 2, " +:+
  quoted "lesson_title" +:+ ": " +:+ quoted "Setup" +:+ ", " +:+
  quoted "lesson_link" +:+ ": " +:+ quoted "https://example.com/l2" +:+ "}]".

Definition mcp_course_reordered : CourseMeta :=
  {| title := Some "Intro to MCP";
     course_link := Some "https://example.com/mcp";
     instructor := Some "Ada";
     lessons_json := Some two_lessons_reordered_text |}.

(** [sample_loads] extended by the texts of these entries. *)
Definition sample_loads' (s : string) : option json :=
  if decide (s = "[7]") then Some (JArr [JInt 7])
  else if decide (s = two_lessons_reordered_text) then
    Some (JArr
      [JObj [("lesson_number", JInt 1); ("lesson_title", JStr "Intro");
             ("lesson_link", JNull)];
       JObj [("lesson_number", JInt 2); ("lesson_title", JStr "Setup");
             ("lesson_link", JStr "https://example.com/l2")]])
  else if decide (s = "null") then Some JNull
  else if decide (s = ordered_lessons_text) then
    Some (JArr [JObj [("lesson_number", JInt 1); ("lesson_title", JStr "Intro")];
                JObj [("lesson_number", JInt 1);
                      ("lesson_title", JStr "Intro, continued")]])
  else if decide (s = sparse_lessons_text) then
    Some (JArr [JObj [("lesson_number", JInt 3); ("lesson_title", JStr "Wrap-up")];
                JObj []])
  else sample_loads s.

(** * Properties *)

(** ** Strings *)

Lemma append_cons (ch : ascii) (a b : string) :
  String ch a +:+ b = String ch (a +:+ b).
Proof. reflexivity. Qed.

Lemma append_assoc (a b c : string) : (a +:+ b) +:+ c = a +:+ (b +:+ c).
Proof.
  induction a as [|ch a IH]; [reflexivity |].
  by rewrite !append_cons, IH.
Qed.

Lemma append_empty_r (a : string) : a +:+ "" = a.
Proof.
  induction a as [|ch a IH]; [reflexivity |].
  by rewrite append_cons, IH.
Qed.

Lemma concat_snoc (sep : string) (xs : list string) (y : string) :
  xs <> [] ->
  String.concat sep (xs ++ [y]) = String.concat sep xs +:+ sep +:+ y.
Proof.
  induction xs as [|x xs IH]; [done | intros _].
  destruct xs as [|x' xs]; [done |].
  change (String.concat sep ((x :: x' :: xs) ++ [y]))
    with (x +:+ sep +:+ String.concat sep ((x' :: xs) ++ [y])).
  rewrite IH by done.
  change (String.concat sep (x :: x' :: xs))
    with (x +:+ sep +:+ String.concat sep (x' :: xs)).
  by rewrite !append_assoc.
Qed.

Lemma lines_nonempty (s : string) : lines s <> [].
Proof.
  destruct s as [|c s]; simpl; [done |].
  destruct (Ascii.eqb c "010"); [done |]. by destruct (lines s).
Qed.

Lemma lines_append_LF (a b : string) :
  lines (a +:+ LF +:+ b) = lines a ++ lines b.
Proof.
  induction a as [|c a IH]; simpl; [done |].
  rewrite IH. destruct (Ascii.eqb c "010"); [done |].
  pose proof (lines_nonempty a). by destruct (lines a).
Qed.

(** ** CourseSearchTool *)

Section SearchTool.

Variable self : CourseSearchTool.
Variable query : string.
Variable course_name : option string.
Variable lesson_number : option Z.

Let results := search (store self) query course_name lesson_number.

Lemma format_hit_block doc meta :
  (format_hit (store self) doc meta).1.1 = hit_block (doc, meta).
Proof.
  unfold format_hit, hit_block, hit_label. simpl.
  destruct (meta_lesson_number meta) as [n|]; simpl.
  - destruct (bool_decide _); simpl; by rewrite !append_assoc.
  - by rewrite !append_assoc.
Qed.

Lemma format_hit_source doc meta :
  (format_hit (store self) doc meta).1.2 = hit_citation (store self) (doc, meta).
Proof.
  unfold format_hit, hit_citation, hit_label. simpl.
  destruct (meta_lesson_number meta) as [n|]; simpl.
  - destruct (bool_decide _); simpl; [|done].
    destruct (get_lesson_link _ _ _) as [url|]; simpl; [|done].
    by destruct (truthy_str url).
  - by rewrite append_empty_r.
Qed.

Lemma format_loop_maps hs formatted sources calls :
  format_loop (store self) hs formatted sources calls =
  (formatted ++ map hit_block hs,
   sources ++ map (hit_citation (store self)) hs,
   calls ++ concat (map (fun h => (format_hit (store self) h.1 h.2).2) hs)).
Proof.
  revert formatted sources calls.
  induction hs as [|[doc meta] hs IH]; intros formatted sources calls; simpl.
  - by rewrite !app_nil_r.
  - pose proof (format_hit_block doc meta) as Hb.
    pose proof (format_hit_source doc meta) as Hs.
    destruct (format_hit (store self) doc meta) as [[block source_info] cs].
    simpl in Hb, Hs. subst. rewrite IH.
    by rewrite <- !app_assoc.
Qed.

(** A result with a truthy error, or one without hits, leaves the tool as
    it was and makes no store call. *)
Lemma execute_early_return :
  truthy_opt_str (error results) = true \/ is_empty results = true ->
  self_after (execute self query course_name lesson_number) = self /\
  link_calls (execute self query course_name lesson_number) = [].
Proof.
  unfold execute. fold results. intros H.
  destruct (error results) as [e|] eqn:He; simpl in H.
  - destruct (truthy_str e); [done |].
    destruct H as [H|H]; [done |]. by rewrite H.
  - destruct H as [H|H]; [done |]. by rewrite H.
Qed.

(** Without a truthy error and with hits, [execute] is [_format_results]. *)
Lemma execute_formats :
  truthy_opt_str (error results) = false -> is_empty results = false ->
  execute self query course_name lesson_number = _format_results self results.
Proof.
  unfold execute. fold results. intros He Hne. rewrite Hne.
  destruct (error results) as [e|]; [|done].
  simpl in He. by rewrite He.
Qed.

(** The empty-result message of the code: a suffix per truthy filter. *)
Lemma execute_empty_message :
  truthy_opt_str (error results) = false -> is_empty results = true ->
  returned (execute self query course_name lesson_number) =
  "No relevant content found" +:+ truthy_course course_name +:+
  truthy_lesson lesson_number +:+ ".".
Proof.
  unfold execute. fold results. intros He Hemp. rewrite Hemp.
  assert (forall r : Ran,
    returned (match error results with
              | Some e => if truthy_str e
                          then {| returned := e; self_after := self;
                                  link_calls := [] |}
                          else r
              | None => r
              end) = returned r) as ->.
  { intros r. destruct (error results) as [e|]; [|done].
    simpl in He. by rewrite He. }
  unfold truthy_course, truthy_lesson. cbn [returned].
  destruct course_name as [c|], lesson_number as [n|];
    repeat match goal with |- context [if ?b then _ else _] => destruct b end;
    cbn [String.append]; rewrite ?append_assoc; reflexivity.
Qed.

End SearchTool.

(** The tool after the first search of the examples: it holds the two
    citations of [two_hits]. *)
Example sources_after_two_hits :
  last_sources (self_after
    (execute (CourseSearchTool_init sample_store) "mcp" None None)) =
  [{| text := "Intro to MCP - Lesson 1";
      link := Some "https://example.com/lesson1" |};
   {| text := "Web Dev - Lesson 2"; link := None |}].
Proof. reflexivity. Qed.

(** C1, evaluated on the code.  The claim asks that every call replaces
    [last_sources] by the citations of that call's hits, also a call whose
    result is empty or carries an error.  After a search with two hits, a
    search without hits and a search that fails both have no hits, and both
    leave the two earlier citations in [last_sources]. *)
Theorem execute_without_hits_keeps_earlier_sources :
  let tool := self_after
    (execute (CourseSearchTool_init sample_store) "mcp" None None) in
  length (last_sources tool) = 2%nat /\
  hits (search (store tool) "nothing" None None) = [] /\
  last_sources (self_after (execute tool "nothing" None None)) =
    last_sources tool /\
  hits (search (store tool) "down" None None) = [] /\
  error (search (store tool) "down" None None) =
    Some "Database connection failed" /\
  last_sources (self_after (execute tool "down" None None)) =
    last_sources tool.
Proof. repeat split; reflexivity. Qed.

(** C2 as stated fails: with [lesson_number = 0] supplied and no hits, the
    message has no [ in lesson 0] suffix. *)
Lemma empty_message_drops_lesson_zero :
  let tool := CourseSearchTool_init sample_store in
  error (search (store tool) "x" None (Some 0)) = None /\
  is_empty (search (store tool) "x" None (Some 0)) = true /\
  "No relevant content found" +:+ supplied_course None +:+
    supplied_lesson (Some 0) +:+ "." =
    "No relevant content found in lesson 0." /\
  returned (execute tool "x" None (Some 0)) = "No relevant content found." /\
  returned (execute tool "x" None (Some 0)) <>
    "No relevant content found" +:+ supplied_course None +:+
    supplied_lesson (Some 0) +:+ ".".
Proof. repeat split; try reflexivity. vm_compute. discriminate. Qed.

(** C2, amended: for an empty, error-free result the message is
    [No relevant content found], then [ in course '<name>'] exactly when a
    non-empty course name was supplied, then [ in lesson <n>] exactly when
    a lesson number other than zero was supplied, then a period. *)
Theorem execute_empty_message_filters
    (self : CourseSearchTool) (query : string)
    (course_name : option string) (lesson_number : option Z) :
  error (search (store self) query course_name lesson_number) = None ->
  is_empty (search (store self) query course_name lesson_number) = true ->
  returned (execute self query course_name lesson_number) =
  "No relevant content found" +:+ truthy_course course_name +:+
  truthy_lesson lesson_number +:+ ".".
Proof.
  intros He Hemp. apply execute_empty_message; [|done].
  by rewrite He.
Qed.

Lemma execute_empty_message_filters_witness :
  let tool := CourseSearchTool_init sample_store in
  error (search (store tool) "x" (Some "MCP") (Some 5)) = None /\
  is_empty (search (store tool) "x" (Some "MCP") (Some 5)) = true /\
  returned (execute tool "x" (Some "MCP") (Some 5)) =
  "No relevant content found" +:+ truthy_course (Some "MCP") +:+
  truthy_lesson (Some 5) +:+ ".".
Proof.
  intros tool.
  split; [reflexivity |].
  split; [reflexivity |].
  apply (execute_empty_message_filters tool "x" (Some "MCP") (Some 5));
    reflexivity.
Defined.

(** Scenario B of the specification. *)
Example scenario_B :
  returned (execute (CourseSearchTool_init sample_store) "x" (Some "MCP") (Some 5)) =
  "No relevant content found in course 'MCP' in lesson 5.".
Proof. reflexivity. Qed.

(** C4 as stated fails: a result whose error is the empty string is not
    answered with that string; the test [if results.error] takes it for a
    result without error. *)
Lemma empty_error_string_not_returned :
  let tool := CourseSearchTool_init sample_store in
  error (search (store tool) "blank" None None) = Some "" /\
  returned (execute tool "blank" None None) = "No relevant content found." /\
  returned (execute tool "blank" None None) <> "".
Proof. repeat split; try reflexivity. vm_compute. discriminate. Qed.

(** C4, amended: for every search result that carries a non-empty error
    string, [execute] returns exactly that string; it formats nothing: the
    tool and its [last_sources] are as before and no lesson link is looked
    up.  [execute] is a total function here, it raises nothing. *)
Theorem execute_returns_error_verbatim
    (self : CourseSearchTool) (query : string)
    (course_name : option string) (lesson_number : option Z) (e : string) :
  error (search (store self) query course_name lesson_number) = Some e ->
  e <> "" ->
  returned (execute self query course_name lesson_number) = e /\
  self_after (execute self query course_name lesson_number) = self /\
  link_calls (execute self query course_name lesson_number) = [].
Proof.
  intros He Hne. unfold execute. rewrite He.
  destruct e as [|ch e]; [done | by cbn].
Qed.

Lemma execute_returns_error_verbatim_witness :
  let tool := CourseSearchTool_init sample_store in
  error (search (store tool) "down" None None) =
    Some "Database connection failed" /\
  "Database connection failed" <> "" /\
  returned (execute tool "down" None None) = "Database connection failed" /\
  self_after (execute tool "down" None None) = tool /\
  link_calls (execute tool "down" None None) = [].
Proof.
  intros tool.
  split; [reflexivity |].
  split; [discriminate |].
  apply (execute_returns_error_verbatim tool "down" None None
           "Database connection failed"); [reflexivity | discriminate].
Defined.

(** C5: for a result with hits and no error, [execute] returns the blocks
    of the hits, each the header [[<course_title>], [ - Lesson <n>] when
    the hit has a lesson number, []]], a line feed and the document, joined
    by a blank line; and [last_sources] holds one citation per hit, in the
    order of the hits. *)
Theorem execute_renders_hits
    (self : CourseSearchTool) (query : string)
    (course_name : option string) (lesson_number : option Z) :
  error (search (store self) query course_name lesson_number) = None ->
  is_empty (search (store self) query course_name lesson_number) = false ->
  returned (execute self query course_name lesson_number) =
    String.concat (LF +:+ LF)
      (map hit_block (hits (search (store self) query course_name lesson_number))) /\
  last_sources (self_after (execute self query course_name lesson_number)) =
    map (hit_citation (store self))
      (hits (search (store self) query course_name lesson_number)) /\
  length (last_sources (self_after (execute self query course_name lesson_number))) =
    length (hits (search (store self) query course_name lesson_number)).
Proof.
  intros He Hne.
  rewrite execute_formats by (by rewrite ?He).
  unfold _format_results, hits.
  rewrite format_loop_maps. cbn.
  by rewrite length_map.
Qed.

Lemma execute_renders_hits_witness :
  let tool := CourseSearchTool_init sample_store in
  error (search (store tool) "mcp" None None) = None /\
  is_empty (search (store tool) "mcp" None None) = false /\
  returned (execute tool "mcp" None None) =
    String.concat (LF +:+ LF)
      (map hit_block (hits (search (store tool) "mcp" None None))) /\
  last_sources (self_after (execute tool "mcp" None None)) =
    map (hit_citation (store tool)) (hits (search (store tool) "mcp" None None)) /\
  length (last_sources (self_after (execute tool "mcp" None None))) =
    length (hits (search (store tool) "mcp" None None)).
Proof.
  intros tool.
  split; [reflexivity |].
  split; [reflexivity |].
  apply (execute_renders_hits tool "mcp" None None); reflexivity.
Defined.

(** Scenario C of the specification: the two blocks and their headers. *)
Example scenario_C :
  returned (execute (CourseSearchTool_init sample_store) "mcp" None None) =
  "[Intro to MCP - Lesson 1]" +:+ LF +:+ "MCP connects models to tools." +:+
  LF +:+ LF +:+
  "[Web Dev - Lesson 2]" +:+ LF +:+ "HTML describes pages.".
Proof. reflexivity. Qed.

(** C10 as stated fails: a call with [lesson_number = 0] does not always
    return exactly [No relevant content found.]; with a course name
    supplied as well, the course suffix stays. *)
Lemma lesson_zero_keeps_course_suffix :
  let tool := CourseSearchTool_init sample_store in
  error (search (store tool) "x" (Some "MCP") (Some 0)) = None /\
  is_empty (search (store tool) "x" (Some "MCP") (Some 0)) = true /\
  returned (execute tool "x" (Some "MCP") (Some 0)) =
    "No relevant content found in course 'MCP'." /\
  returned (execute tool "x" (Some "MCP") (Some 0)) <>
    "No relevant content found.".
Proof. repeat split; try reflexivity. vm_compute. discriminate. Qed.

(** C10, amended: the empty-result message takes a suffix only from a
    truthy filter.  With [lesson_number = 0] there is no lesson suffix,
    with [course_name = ""] no course suffix; when the other filter adds
    nothing either (it is absent or falsy), the message is exactly
    [No relevant content found.]. *)
Theorem execute_falsy_filter_adds_no_suffix
    (self : CourseSearchTool) (query : string)
    (course_name : option string) (lesson_number : option Z) :
  error (search (store self) query course_name lesson_number) = None ->
  is_empty (search (store self) query course_name lesson_number) = true ->
  (lesson_number = Some 0 ->
     returned (execute self query course_name lesson_number) =
     "No relevant content found" +:+ truthy_course course_name +:+ ".") /\
  (course_name = Some "" ->
     returned (execute self query course_name lesson_number) =
     "No relevant content found" +:+ truthy_lesson lesson_number +:+ ".") /\
  (lesson_number = Some 0 -> course_name = None \/ course_name = Some "" ->
     returned (execute self query course_name lesson_number) =
     "No relevant content found.") /\
  (course_name = Some "" -> lesson_number = None \/ lesson_number = Some 0 ->
     returned (execute self query course_name lesson_number) =
     "No relevant content found.").
Proof.
  intros He Hemp.
  rewrite execute_empty_message by (by rewrite ?He).
  repeat split.
  - by intros ->.
  - by intros ->.
  - by intros -> [-> | ->].
  - by intros -> [-> | ->].
Qed.

Lemma execute_falsy_filter_adds_no_suffix_witness :
  let tool := CourseSearchTool_init sample_store in
  error (search (store tool) "x" (Some "") (Some 0)) = None /\
  is_empty (search (store tool) "x" (Some "") (Some 0)) = true /\
  returned (execute tool "x" (Some "") (Some 0)) = "No relevant content found.".
Proof.
  intros tool.
  split; [reflexivity |].
  split; [reflexivity |].
  apply (execute_falsy_filter_adds_no_suffix tool "x" (Some "") (Some 0));
    [reflexivity | reflexivity | reflexivity | by right].
Defined.

(** ** ToolManager *)

Section Dicts.

Context {V : Type}.
Implicit Types (d : list (string * V)) (k : string) (v : V).

Lemma dict_get_set_eq d k v : dict_get (dict_set d k v) k = Some v.
Proof.
  induction d as [|[k' v'] d IH]; simpl.
  - by rewrite decide_True.
  - destruct (decide (k' = k)) as [->|Hne]; simpl.
    + by rewrite decide_True.
    + by rewrite decide_False.
Qed.

Lemma dict_get_set_ne d k k0 v :
  k0 <> k -> dict_get (dict_set d k v) k0 = dict_get d k0.
Proof.
  intros Hne. induction d as [|[k' v'] d IH]; simpl.
  - by rewrite decide_False.
  - destruct (decide (k' = k)) as [->|Hk]; simpl.
    + by rewrite !decide_False.
    + destruct (decide (k' = k0)); [done | apply IH].
Qed.

(** Setting a key that is bound changes no key and no position. *)
Lemma dict_set_keys d k v :
  is_Some (dict_get d k) -> map fst (dict_set d k v) = map fst d.
Proof.
  induction d as [|[k' v'] d IH]; simpl.
  - by intros [? ?].
  - destruct (decide (k' = k)) as [->|Hk]; simpl; [done |].
    intros H. by rewrite IH.
Qed.

End Dicts.

Example register_two_tools :
  register_tool sample_heap ToolManager_init 0%nat ≫=
    (fun m => register_tool sample_heap m 1%nat) = Return sample_manager.
Proof. reflexivity. Qed.

(** The test [test_register_tool_without_name]. *)
Example register_nameless_tool :
  register_tool sample_heap ToolManager_init 2%nat =
  Raise (ValueError "Tool must have a 'name' in its definition").
Proof. reflexivity. Qed.

(** C3 as stated fails in its second half: registering a tool under a name
    that is already registered raises nothing; the new tool takes the
    place of the old one. *)
Lemma register_duplicate_name_overwrites :
  dict_get (tools sample_manager) "search_course_content" = Some 0%nat /\
  dict_get (obj_definition (OtherObj rival_tool)) "name" =
    Some (JStr "search_course_content") /\
  register_tool sample_heap sample_manager 3%nat =
    Return {| tools := [("search_course_content", 3%nat);
                        ("get_course_outline", 1%nat)] |} /\
  (forall e, register_tool sample_heap sample_manager 3%nat <> Raise e).
Proof. repeat split; try reflexivity. intros e. vm_compute. discriminate. Qed.

(** C3, amended: [register_tool] raises the [ValueError] of a missing name,
    and registers nothing, whenever the tool's definition has no name (or
    a falsy one, such as the empty string).  A tool with a name is
    registered under it, whether or not the name was registered before: an
    earlier tool of that name is replaced, all other names keep their tool. *)
Theorem register_tool_name_rules
    (h : gmap nat tool_obj) (self : ToolManager) (tool : nat) (o : tool_obj) :
  h !! tool = Some o ->
  (truthy (default JNull (dict_get (obj_definition o) "name")) = false ->
     register_tool h self tool =
     Raise (ValueError "Tool must have a 'name' in its definition")) /\
  (forall name : string,
     dict_get (obj_definition o) "name" = Some (JStr name) -> name <> "" ->
     exists self',
       register_tool h self tool = Return self' /\
       dict_get (tools self') name = Some tool /\
       (forall other, other <> name ->
          dict_get (tools self') other = dict_get (tools self) other)).
Proof.
  intros Ho. unfold register_tool. rewrite Ho. split.
  - by intros ->.
  - intros name Hname Hne. rewrite Hname. simpl.
    destruct name as [|ch name]; [done |]. simpl.
    eexists. split; [done |]. simpl. split.
    + apply dict_get_set_eq.
    + intros other Hother. by apply dict_get_set_ne.
Qed.

Lemma register_tool_name_rules_witness :
  sample_heap !! 3%nat = Some (OtherObj rival_tool) /\
  dict_get (obj_definition (OtherObj rival_tool)) "name" =
    Some (JStr "search_course_content") /\
  "search_course_content" <> "" /\
  exists self',
    register_tool sample_heap sample_manager 3%nat = Return self' /\
    dict_get (tools self') "search_course_content" = Some 3%nat /\
    (forall other, other <> "search_course_content" ->
       dict_get (tools self') other = dict_get (tools sample_manager) other).
Proof.
  split; [reflexivity |].
  split; [reflexivity |].
  split; [discriminate |].
  apply (register_tool_name_rules sample_heap sample_manager 3%nat
           (OtherObj rival_tool)); [reflexivity | reflexivity | discriminate].
Defined.

Lemma execute_tool_colliding (h : gmap nat tool_obj) (self : ToolManager)
    (tool_name : string) (kwargs : list (string * json)) :
  collides kwargs = true ->
  execute_tool h self tool_name kwargs = (Raise TypeError, h).
Proof. unfold execute_tool. by intros ->. Qed.

Lemma execute_tool_binding (h : gmap nat tool_obj) (self : ToolManager)
    (tool_name : string) (kwargs : list (string * json)) :
  collides kwargs = false ->
  execute_tool h self tool_name kwargs =
  match dict_get (tools self) tool_name with
  | None => (Return ("Tool '" +:+ tool_name +:+ "' not found"), h)
  | Some a =>
      match h !! a with
      | None => (Unmodelled, h)
      | Some o => let '(r, o') := obj_execute o kwargs in (r, <[a := o']> h)
      end
  end.
Proof. unfold execute_tool. by intros ->. Qed.

(** C6 as stated fails: a keyword argument named [tool_name] (or [self])
    collides with the parameters of [execute_tool]; the call raises a
    [TypeError], for an unknown name instead of the answer
    [Tool '<name>' not found], for a registered name without reaching the
    tool. *)
Lemma execute_tool_colliding_keyword :
  dict_get (tools sample_manager) "nonexistent_tool" = None /\
  execute_tool sample_heap sample_manager "nonexistent_tool"
    [("tool_name", JStr "search_course_content")] =
    (Raise TypeError, sample_heap) /\
  (execute_tool sample_heap sample_manager "nonexistent_tool"
     [("tool_name", JStr "search_course_content")]).1 <>
    Return "Tool 'nonexistent_tool' not found" /\
  dict_get (tools sample_manager) "get_course_outline" = Some 1%nat /\
  sample_heap !! 1%nat = Some (OtherObj outline_tool) /\
  (obj_execute (OtherObj outline_tool) [("self", JStr "x")]).1 =
    Return "No course found matching 'x'" /\
  (execute_tool sample_heap sample_manager "get_course_outline"
     [("self", JStr "x")]).1 = Raise TypeError.
Proof. repeat split; try reflexivity. vm_compute. discriminate. Qed.

(** C6, amended: for keyword arguments that do not collide with the
    parameters of [execute_tool] (none is named [tool_name] or [self]),
    [execute_tool] returns the string [Tool '<name>' not found] for a name
    that is not in the registry, raising nothing and changing nothing, and
    for a registered name hands the keyword arguments to the [execute] of
    the tool registered under it and returns what that gives.  With a
    colliding keyword the call raises a [TypeError] and changes nothing. *)
Theorem execute_tool_dispatch
    (h : gmap nat tool_obj) (self : ToolManager) (tool_name : string)
    (kwargs : list (string * json)) :
  (collides kwargs = true ->
     execute_tool h self tool_name kwargs = (Raise TypeError, h)) /\
  (collides kwargs = false ->
     (dict_get (tools self) tool_name = None ->
        execute_tool h self tool_name kwargs =
        (Return ("Tool '" +:+ tool_name +:+ "' not found"), h)) /\
     (forall (a : nat) (o : tool_obj),
        dict_get (tools self) tool_name = Some a -> h !! a = Some o ->
        (execute_tool h self tool_name kwargs).1 = (obj_execute o kwargs).1 /\
        (execute_tool h self tool_name kwargs).2 =
          <[a := (obj_execute o kwargs).2]> h)).
Proof.
  split; [apply execute_tool_colliding |].
  intros Hfree. rewrite execute_tool_binding by done. split.
  - by intros ->.
  - intros a o -> ->. by destruct (obj_execute o kwargs).
Qed.

Lemma execute_tool_dispatch_witness :
  collides [("query", JStr "test")] = false /\
  dict_get (tools sample_manager) "nonexistent_tool" = None /\
  execute_tool sample_heap sample_manager "nonexistent_tool" [("query", JStr "test")] =
    (Return "Tool 'nonexistent_tool' not found", sample_heap) /\
  collides [("query", JStr "x"); ("lesson_number", JInt 5)] = false /\
  dict_get (tools sample_manager) "search_course_content" = Some 0%nat /\
  sample_heap !! 0%nat = Some (SearchObj (CourseSearchTool_init sample_store)) /\
  (execute_tool sample_heap sample_manager "search_course_content"
     [("query", JStr "x"); ("lesson_number", JInt 5)]).1 =
  (obj_execute (SearchObj (CourseSearchTool_init sample_store))
     [("query", JStr "x"); ("lesson_number", JInt 5)]).1.
Proof.
  split; [reflexivity |].
  split; [reflexivity |].
  split; [apply (proj2 (execute_tool_dispatch sample_heap sample_manager
                   "nonexistent_tool" [("query", JStr "test")]));
          reflexivity |].
  split; [reflexivity |].
  split; [reflexivity |].
  split; [reflexivity |].
  apply (proj2 (proj2 (execute_tool_dispatch sample_heap sample_manager
           "search_course_content"
           [("query", JStr "x"); ("lesson_number", JInt 5)]) eq_refl) 0%nat);
    reflexivity.
Defined.

Example execute_tool_search :
  (execute_tool sample_heap sample_manager "search_course_content"
     [("query", JStr "x"); ("lesson_number", JInt 5)]).1 =
  Return "No relevant content found in lesson 5.".
Proof. reflexivity. Qed.

Lemma cleared_idemp (o : tool_obj) : cleared (cleared o) = cleared o.
Proof.
  destruct o as [t|t]; [reflexivity |].
  unfold cleared; simpl.
  destruct (other_last_sources t) eqn:E; simpl; by rewrite ?E.
Qed.

Lemma cleared_sources (o : tool_obj) :
  obj_last_sources (cleared o) = None \/ obj_last_sources (cleared o) = Some [].
Proof.
  destruct o as [t|t]; [by right |].
  unfold cleared; simpl. destruct (other_last_sources t) eqn:E; simpl; auto.
Qed.

(** After the loop, every tool it visited is cleared and no other tool has
    changed. *)
Lemma reset_loop_lookup (values : list nat) (h : gmap nat tool_obj) (a : nat) :
  reset_loop h values !! a =
  if bool_decide (a ∈ values) then cleared <$> h !! a else h !! a.
Proof.
  revert h. induction values as [|b values IH]; intros h; cbn [reset_loop].
  - by rewrite bool_decide_false by set_solver.
  - assert (Hstep : forall h',
      h' !! b = cleared <$> h !! b ->
      (forall c, c <> b -> h' !! c = h !! c) ->
      reset_loop h' values !! a =
      if bool_decide (a ∈ b :: values) then cleared <$> h !! a else h !! a).
    { intros h' Hb Hother. rewrite IH.
      destruct (decide (a = b)) as [->|Hab].
      - rewrite (bool_decide_true (b ∈ b :: values)) by set_solver.
        rewrite Hb. case_bool_decide; [|done].
        destruct (h !! b) as [o|]; simpl; [|done]. by rewrite cleared_idemp.
      - rewrite Hother by done.
        assert (a ∈ b :: values <-> a ∈ values) as Hiff.
        { rewrite elem_of_cons. split; [by intros [?|?] | by right]. }
        by rewrite (bool_decide_ext _ _ Hiff). }
    destruct (h !! b) as [o|] eqn:Hb.
    + destruct (obj_last_sources o) eqn:Ho.
      * apply Hstep.
        -- rewrite lookup_insert_eq. simpl. unfold cleared. by rewrite Ho.
        -- intros c Hc. by rewrite lookup_insert_ne.
      * apply Hstep; [|done]. rewrite Hb. simpl. unfold cleared. by rewrite Ho.
    + by apply Hstep.
Qed.

(** The poll finds nothing when no visited tool holds a non-empty list. *)
Lemma first_sources_nil (h : gmap nat tool_obj) (values : list nat) :
  (forall a, a ∈ values ->
     h !! a ≫= obj_last_sources = None \/
     h !! a ≫= obj_last_sources = Some []) ->
  first_sources h values = [].
Proof.
  induction values as [|a values IH]; intros H; simpl; [done |].
  destruct (H a) as [-> | ->]; [set_solver | | ]; apply IH; set_solver.
Qed.

Lemma constructed_sources (o : tool_obj) :
  constructed o ->
  obj_last_sources o = None \/ obj_last_sources o = Some [].
Proof.
  destruct o as [t|t]; simpl.
  - intros ->. by right.
  - intros ->. by left.
Qed.

(** C9: after [reset_sources], [get_last_sources] returns the empty list,
    whatever tools are registered and whatever they held before; it also
    does on a manager that was just constructed, and on any manager whose
    tools are as their constructors left them. *)
Theorem get_last_sources_empty_after_reset
    (h : gmap nat tool_obj) (self : ToolManager) :
  get_last_sources (reset_sources h self) self = [] /\
  get_last_sources h ToolManager_init = [] /\
  ((forall a o, h !! a = Some o -> constructed o) ->
     get_last_sources h self = []).
Proof.
  unfold get_last_sources, reset_sources. repeat split.
  - apply first_sources_nil. intros a Ha.
    rewrite reset_loop_lookup, bool_decide_true by done.
    destruct (h !! a) as [o|]; simpl; [apply cleared_sources | by left].
  - intros Hfresh. apply first_sources_nil. intros a _.
    destruct (h !! a) as [o|] eqn:Ho; simpl; [|by left].
    by apply constructed_sources, (Hfresh a).
Qed.

Example sources_after_search :
  length (get_last_sources heap_after_search sample_manager) = 2%nat.
Proof. reflexivity. Qed.

Lemma get_last_sources_empty_after_reset_witness :
  get_last_sources (reset_sources heap_after_search sample_manager)
    sample_manager = [] /\
  (forall a o, sample_heap !! a = Some o -> constructed o) /\
  get_last_sources sample_heap sample_manager = [].
Proof.
  assert (Hfresh : forall a o, sample_heap !! a = Some o -> constructed o).
  { intros a o. unfold sample_heap.
    rewrite !lookup_insert, lookup_singleton.
    repeat case_decide; intros [= <-]; reflexivity. }
  split; [apply (get_last_sources_empty_after_reset heap_after_search
                   sample_manager) |].
  split; [exact Hfresh |].
  apply (get_last_sources_empty_after_reset sample_heap sample_manager), Hfresh.
Defined.

(** ** CourseOutlineTool *)

(** *** Stable sorting *)

Section StableSort.

Context {A : Type}.
Variable le : A -> A -> bool.
Variable R : A -> A -> Prop.
Hypothesis le_true : forall a b, le a b = true -> R a b.
Hypothesis le_false : forall a b, le a b = false -> R b a.
Hypothesis R_trans : forall a b c, R a b -> R b c -> R a c.

Lemma insert_sorted_perm (x : A) (l : list A) :
  Permutation (insert_sorted le x l) (x :: l).
Proof.
  induction l as [|y l IH]; simpl; [done |].
  destruct (le x y); [done |].
  rewrite IH. apply perm_swap.
Qed.

Lemma stable_sort_perm (l : list A) : Permutation (stable_sort le l) l.
Proof.
  induction l as [|x l IH]; simpl; [done |].
  unfold stable_sort in *. simpl.
  by rewrite insert_sorted_perm, IH.
Qed.

Lemma insert_sorted_sorted (x : A) (l : list A) :
  StronglySorted R l -> StronglySorted R (insert_sorted le x l).
Proof.
  induction 1 as [|y l Hl IH Hy]; simpl.
  - by repeat constructor.
  - destruct (le x y) eqn:Hxy.
    + constructor; [by constructor |].
      constructor; [by apply le_true |].
      eapply Forall_impl; [exact Hy |]. intros z Hz.
      eapply R_trans; [by apply le_true | done].
    + constructor; [done |].
      rewrite (insert_sorted_perm x l).
      constructor; [by apply le_false | done].
Qed.

Lemma stable_sort_sorted (l : list A) : StronglySorted R (stable_sort le l).
Proof.
  induction l as [|x l IH]; [constructor |].
  by apply insert_sorted_sorted.
Qed.

End StableSort.

(** Sorting two lists that correspond element by element, with orders that
    agree on corresponding elements, gives corresponding lists. *)
Section SortTogether.

Context {A B : Type}.
Variable rel : A -> B -> Prop.
Variable leA : A -> A -> bool.
Variable leB : B -> B -> bool.
Hypothesis le_agree :
  forall a a' b b', rel a b -> rel a' b' -> leA a a' = leB b b'.

Lemma insert_sorted_together a b l k :
  rel a b -> Forall2 rel l k ->
  Forall2 rel (insert_sorted leA a l) (insert_sorted leB b k).
Proof.
  intros Hab. induction 1 as [|a' b' l k Hab' Hlk IH]; simpl.
  - by repeat constructor.
  - rewrite (le_agree a a' b b') by done.
    destruct (leB b b'); by repeat constructor.
Qed.

Lemma stable_sort_together l k :
  Forall2 rel l k -> Forall2 rel (stable_sort leA l) (stable_sort leB k).
Proof.
  induction 1 as [|a b l k Hab Hlk IH]; [constructor |].
  by apply insert_sorted_together.
Qed.

End SortTogether.

(** *** Lessons and their dicts *)

Lemma decoded_key (d : list (string * json)) (l : Lesson) :
  decode_lesson_dict d = Some l -> lesson_key d = JInt (lesson_number l).
Proof.
  unfold decode_lesson_dict, lesson_key. intros H.
  destruct (dict_get d "lesson_number") as [[| |n| | |]|]; try done.
  destruct (dict_get d "lesson_title") as [[| | |t| |]|]; try done.
  destruct (dict_get d "lesson_link") as [[| | |u| |]|];
    simplify_eq; done.
Qed.

Lemma decoded_parts (d : list (string * json)) (l : Lesson) :
  decode_lesson_dict d = Some l -> lesson_parts d = Return (lesson_bullet l).
Proof.
  unfold decode_lesson_dict, lesson_parts, lesson_bullet. intros H.
  destruct (dict_get d "lesson_number") as [[| |n| | |]|]; try done.
  destruct (dict_get d "lesson_title") as [[| | |t| |]|]; try done.
  destruct (dict_get d "lesson_link") as [[| | |u| |]|];
    simplify_eq; try done.
  simpl. by destruct (truthy_str u).
Qed.

Lemma decoded_le (d d' : list (string * json)) (l l' : Lesson) :
  decode_lesson_dict d = Some l -> decode_lesson_dict d' = Some l' ->
  le_by_number d d' = le_lesson l l'.
Proof.
  intros H H'. unfold le_by_number, le_lesson.
  by rewrite (decoded_key d l H), (decoded_key d' l' H').
Qed.

Lemma all_dicts_decoded (items : list json) (lessons : list Lesson) :
  Forall2 (fun v l => decode_lesson v = Some l) items lessons ->
  exists ds, all_dicts items = Return ds /\
    Forall2 (fun d l => decode_lesson_dict d = Some l) ds lessons.
Proof.
  induction 1 as [|v l items lessons Hv _ (ds & Hds & IH)]; simpl.
  - by exists [].
  - destruct v as [| | | | |d]; try done.
    exists (d :: ds). rewrite Hds. simpl. split; [done | by constructor].
Qed.

Lemma lessons_loop_decoded (ds : list (list (string * json))) (lessons : list Lesson) :
  Forall2 (fun d l => decode_lesson_dict d = Some l) ds lessons ->
  lessons_loop ds = Return (concat (map lesson_bullet lessons)).
Proof.
  induction 1 as [|d l ds lessons Hd _ IH]; simpl; [done |].
  by rewrite (decoded_parts d l Hd), IH.
Qed.

Lemma decoded_keys_numbers (ds : list (list (string * json))) (lessons : list Lesson) :
  Forall2 (fun d l => decode_lesson_dict d = Some l) ds lessons ->
  forallb (fun k => bool_decide (is_Some (key_number k))) (map lesson_key ds) = true.
Proof.
  induction 1 as [|d l ds lessons Hd _ IH]; simpl; [done |].
  by rewrite (decoded_key d l Hd), IH.
Qed.

Lemma sorted_lessons_decoded (items : list json) (lessons : list Lesson) :
  Forall2 (fun v l => decode_lesson v = Some l) items lessons ->
  exists ds, sorted_lessons items = Return ds /\
    Forall2 (fun d l => decode_lesson_dict d = Some l)
            ds (stable_sort le_lesson lessons).
Proof.
  intros H. destruct (all_dicts_decoded items lessons H) as (ds & Hds & Hdec).
  exists (stable_sort le_by_number ds). split.
  - unfold sorted_lessons. rewrite Hds. simpl.
    pose proof (decoded_keys_numbers ds lessons Hdec) as Hkeys.
    destruct ds as [|d1 [|d2 ds]]; [done | done |].
    by rewrite Hkeys.
  - apply stable_sort_together with (leA := le_by_number) (leB := le_lesson);
      [apply decoded_le | done].
Qed.

(** *** The outline *)

Lemma course_header_nonempty (metadata : CourseMeta) : course_header metadata <> [].
Proof.
  unfold course_header.
  destruct (truthy_str (default "" (course_link metadata))),
           (truthy_str (default "" (instructor metadata))); done.
Qed.

Lemma le_lesson_true (a b : Lesson) :
  le_lesson a b = true -> lesson_number a <= lesson_number b.
Proof. unfold le_lesson. lia. Qed.

Lemma le_lesson_false (a b : Lesson) :
  le_lesson a b = false -> lesson_number b <= lesson_number a.
Proof. unfold le_lesson. lia. Qed.

(** C7: when the lesson list of a catalog entry is not JSON, or is the
    empty list, [_format_outline] returns (it raises nothing) the header
    lines followed by a blank line and the line
    [No lesson information available.]; no lesson bullet is written. *)
Theorem format_outline_without_lessons
    (json_loads : string -> option json) (metadata : CourseMeta) :
  json_loads (default "[]" (lessons_json metadata)) = None \/
  json_loads (default "[]" (lessons_json metadata)) = Some (JArr []) ->
  exists out : string,
    _format_outline json_loads metadata = Return out /\
    out = String.concat LF
            (course_header metadata ++ [LF +:+ "No lesson information available."]) /\
    lines out = lines (String.concat LF (course_header metadata)) ++
                [""; "No lesson information available."] /\
    "No lesson information available." ∈ lines out.
Proof.
  intros H. eexists. split; [|split; [reflexivity |]].
  - unfold _format_outline. by destruct H as [-> | ->].
  - rewrite concat_snoc by apply course_header_nonempty.
    rewrite lines_append_LF.
    change (LF +:+ "No lesson information available.")
      with ("" +:+ LF +:+ "No lesson information available.").
    rewrite lines_append_LF. split; [reflexivity |].
    rewrite !elem_of_app. do 2 right. apply list_elem_of_here.
Qed.

Lemma format_outline_without_lessons_witness :
  (sample_loads (default "[]" (lessons_json broken_course)) = None \/
   sample_loads (default "[]" (lessons_json broken_course)) = Some (JArr [])) /\
  exists out : string,
    _format_outline sample_loads broken_course = Return out /\
    out = String.concat LF
            (course_header broken_course ++
             [LF +:+ "No lesson information available."]) /\
    lines out = lines (String.concat LF (course_header broken_course)) ++
                [""; "No lesson information available."] /\
    "No lesson information available." ∈ lines out.
Proof.
  split; [left; reflexivity |].
  apply (format_outline_without_lessons sample_loads broken_course).
  left; reflexivity.
Defined.

Example outline_of_broken_course :
  _format_outline sample_loads broken_course =
  Return ("**Web Dev**" +:+ LF +:+ LF +:+ "No lesson information available.").
Proof. reflexivity. Qed.

(** C8: when the lesson list of a catalog entry parses to a non-empty list
    of lessons, [_format_outline] returns the header lines, then the header
    that counts the lessons, then one bullet per lesson with its number
    and title, followed by its link line when the lesson has a link; the
    bullets are in ascending order of lesson number (lessons of the same
    number in their stored order). *)
Theorem format_outline_lessons_sorted
    (json_loads : string -> option json) (metadata : CourseMeta)
    (items : list json) (lessons : list Lesson) :
  json_loads (default "[]" (lessons_json metadata)) = Some (JArr items) ->
  mapM decode_lesson items = Some lessons ->
  lessons <> [] ->
  Permutation (stable_sort le_lesson lessons) lessons /\
  StronglySorted (fun a b => lesson_number a <= lesson_number b)
                 (stable_sort le_lesson lessons) /\
  _format_outline json_loads metadata =
  Return (String.concat LF
            (course_header metadata ++
             count_header (length lessons) ::
             concat (map lesson_bullet (stable_sort le_lesson lessons)))).
Proof.
  intros Hloads Hdec Hne.
  split; [apply stable_sort_perm |].
  split.
  { apply stable_sort_sorted;
      [apply le_lesson_true | apply le_lesson_false | intros a b c; lia]. }
  apply mapM_Some in Hdec.
  destruct (sorted_lessons_decoded items lessons Hdec) as (ds & Hsorted & Hds).
  unfold _format_outline. rewrite Hloads.
  unfold lessons_section.
  assert (truthy (JArr items) = true) as ->.
  { destruct Hdec; [done | reflexivity]. }
  rewrite Hsorted. simpl.
  rewrite (lessons_loop_decoded _ _ Hds). simpl.
  by rewrite (Forall2_length _ _ _ Hdec).
Qed.

Lemma format_outline_lessons_sorted_witness :
  let lessons :=
    [{| lesson_number := 2; lesson_title := "Setup";
        lesson_link := Some "https://example.com/l2" |};
     {| lesson_number := 1; lesson_title := "Intro"; lesson_link := None |}] in
  (exists items,
     sample_loads (default "[]" (lessons_json mcp_course)) = Some (JArr items) /\
     mapM decode_lesson items = Some lessons) /\
  lessons <> [] /\
  Permutation (stable_sort le_lesson lessons) lessons /\
  StronglySorted (fun a b => lesson_number a <= lesson_number b)
                 (stable_sort le_lesson lessons) /\
  _format_outline sample_loads mcp_course =
  Return (String.concat LF
            (course_header mcp_course ++
             count_header (length lessons) ::
             concat (map lesson_bullet (stable_sort le_lesson lessons)))).
Proof.
  intros lessons.
  split; [eexists; split; reflexivity |].
  split; [discriminate |].
  eapply (format_outline_lessons_sorted sample_loads mcp_course);
    [reflexivity | reflexivity | discriminate].
Defined.

Example outline_of_mcp_course :
  _format_outline sample_loads mcp_course =
  Return ("**Intro to MCP**" +:+ LF +:+
          "Course Link: https://example.com/mcp" +:+ LF +:+
          "Instructor: Ada" +:+ LF +:+ LF +:+
          "**Course Outline (2 lessons):**" +:+ LF +:+
          "• Lesson 1: Intro" +:+ LF +:+
          "• Lesson 2: Setup" +:+ LF +:+
          "  Link: https://example.com/l2").
Proof. reflexivity. Qed.

(** * Further properties of the code *)

(** ** CourseSearchTool: lookups, citations, repeated calls *)

Lemma format_hit_calls (st : VectorStore) (doc : string) (meta : ChunkMeta) :
  (format_hit st doc meta).2 = hit_lookups (doc, meta).
Proof.
  unfold format_hit, hit_lookups. simpl.
  destruct (meta_lesson_number meta) as [n|]; [|done].
  by destruct (bool_decide _).
Qed.

Lemma format_results_fields (self : CourseSearchTool) (r : SearchResults) :
  _format_results self r =
  {| returned := String.concat (LF +:+ LF) (map hit_block (hits r));
     self_after := {| store := store self;
                      last_sources := map (hit_citation (store self)) (hits r) |};
     link_calls := concat (map hit_lookups (hits r)) |}.
Proof.
  unfold _format_results, hits. rewrite format_loop_maps. cbn.
  do 2 f_equal. apply map_ext. intros [doc meta]. apply format_hit_calls.
Qed.

(** The three ways out of [execute], by the result of the search. *)
Lemma execute_cases (self : CourseSearchTool) (query : string)
    (course_name : option string) (lesson_number : option Z) :
  let r := search (store self) query course_name lesson_number in
  (truthy_opt_str (error r) || is_empty r = true /\
   self_after (execute self query course_name lesson_number) = self /\
   link_calls (execute self query course_name lesson_number) = []) \/
  (truthy_opt_str (error r) || is_empty r = false /\
   execute self query course_name lesson_number = _format_results self r).
Proof.
  intros r. destruct (truthy_opt_str (error r)) eqn:He; simpl.
  - left. split; [done |]. apply execute_early_return. by left.
  - destruct (is_empty r) eqn:Hemp.
    + left. split; [done |]. apply execute_early_return. by right.
    + right. split; [done |]. by apply execute_formats.
Qed.

(** X1: [execute] looks up a lesson link once for each hit that has a
    lesson number and a course title other than [unknown], in the order of
    the hits, and makes no lookup at all when the result carries an error
    or has no documents. *)
Theorem execute_link_lookups
    (self : CourseSearchTool) (query : string)
    (course_name : option string) (lesson_number : option Z) :
  link_calls (execute self query course_name lesson_number) =
  if truthy_opt_str (error (search (store self) query course_name lesson_number))
     || is_empty (search (store self) query course_name lesson_number)
  then []
  else concat (map hit_lookups
                 (hits (search (store self) query course_name lesson_number))).
Proof.
  destruct (execute_cases self query course_name lesson_number)
    as [(-> & _ & Hcalls) | (-> & Hfmt)]; [done |].
  by rewrite Hfmt, format_results_fields.
Qed.

Lemma concat_blocks_nonempty (hs : list (string * ChunkMeta)) :
  hs <> [] -> String.concat (LF +:+ LF) (map hit_block hs) <> "".
Proof.
  destruct hs as [|[doc meta] hs]; [done | intros _].
  destruct hs as [|h hs]; simpl; unfold hit_block; discriminate.
Qed.

(** X2: when the result has documents and no error, [execute] pairs
    documents with metadata and drops the surplus of the longer list: it
    stores as many citations as the shorter list has entries, and its
    answer is the empty string exactly when there is no metadata at all. *)
Theorem execute_pairs_documents_with_metadata
    (self : CourseSearchTool) (query : string)
    (course_name : option string) (lesson_number : option Z) :
  truthy_opt_str (error (search (store self) query course_name lesson_number))
    = false ->
  is_empty (search (store self) query course_name lesson_number) = false ->
  length (last_sources (self_after (execute self query course_name lesson_number))) =
    Nat.min (length (documents (search (store self) query course_name lesson_number)))
            (length (metadata (search (store self) query course_name lesson_number))) /\
  (returned (execute self query course_name lesson_number) = "" <->
   metadata (search (store self) query course_name lesson_number) = []).
Proof.
  intros He Hne. rewrite execute_formats by done.
  rewrite format_results_fields. cbn [returned self_after last_sources].
  set (r := search (store self) query course_name lesson_number) in *.
  split.
  - unfold hits. by rewrite length_map, length_combine.
  - unfold is_empty in Hne. unfold hits.
    destruct (documents r) as [|doc docs]; [done |].
    destruct (metadata r) as [|meta metas]; [done |].
    split; [|done]. intros H.
    by apply (concat_blocks_nonempty ((doc, meta) :: combine docs metas)) in H.
Qed.

Lemma execute_pairs_documents_with_metadata_witness :
  truthy_opt_str (error (search lopsided_store "q" None None)) = false /\
  is_empty (search lopsided_store "q" None None) = false /\
  length (last_sources (self_after
    (execute (CourseSearchTool_init lopsided_store) "q" None None))) =
    Nat.min 2 1 /\
  (returned (execute (CourseSearchTool_init lopsided_store) "q" None None) = "" <->
   metadata (search lopsided_store "q" None None) = []).
Proof.
  split; [reflexivity |].
  split; [reflexivity |].
  apply (execute_pairs_documents_with_metadata
           (CourseSearchTool_init lopsided_store) "q" None None); reflexivity.
Defined.

Lemma hit_citation_ok (st : VectorStore) (hit : string * ChunkMeta) :
  linked_source_ok (hit_citation st hit).
Proof.
  unfold linked_source_ok, hit_citation, hit_label. simpl.
  destruct (meta_lesson_number hit.2) as [n|]; [|done].
  case_bool_decide as Htitle; [|done].
  destruct (get_lesson_link _ _ _) as [url|]; [|done].
  destruct url as [|ch url]; [done |]. simpl.
  split; [done |]. by exists (default "unknown" (meta_course_title hit.2)), n.
Qed.

Lemma execute_keeps_store (self : CourseSearchTool) (query : string)
    (course_name : option string) (lesson_number : option Z) :
  store (self_after (execute self query course_name lesson_number)) = store self.
Proof.
  destruct (execute_cases self query course_name lesson_number)
    as [(_ & -> & _) | (_ & ->)]; [done |].
  by rewrite format_results_fields.
Qed.

Lemma execute_keeps_sources_ok (self : CourseSearchTool) (query : string)
    (course_name : option string) (lesson_number : option Z) :
  Forall linked_source_ok (last_sources self) ->
  Forall linked_source_ok
    (last_sources (self_after (execute self query course_name lesson_number))).
Proof.
  intros Hok.
  destruct (execute_cases self query course_name lesson_number)
    as [(_ & -> & _) | (_ & ->)]; [done |].
  rewrite format_results_fields. cbn [self_after last_sources].
  apply List.Forall_map, Forall_true. intros hit. apply hit_citation_ok.
Qed.

(** X3: whatever calls of [execute] a freshly constructed tool has served,
    it still holds the store it was constructed with, and every citation
    in [last_sources] that has a link names a lesson of a course with a
    known title and has a non-empty link. *)
Theorem run_calls_invariant (vector_store : VectorStore) (calls : list SearchCall) :
  store (run_calls calls (CourseSearchTool_init vector_store)) = vector_store /\
  Forall linked_source_ok
    (last_sources (run_calls calls (CourseSearchTool_init vector_store))).
Proof.
  assert (forall self,
    store self = vector_store -> Forall linked_source_ok (last_sources self) ->
    store (run_calls calls self) = vector_store /\
    Forall linked_source_ok (last_sources (run_calls calls self))) as Hrun.
  { induction calls as [|c calls IH]; intros self Hst Hok; [done |].
    apply IH; [by rewrite execute_keeps_store |].
    by apply execute_keeps_sources_ok. }
  apply Hrun; [done | constructor].
Qed.

(** X4: a second call of [execute] with the same arguments changes
    nothing: it gives the same answer and leaves the tool as the first
    call left it. *)
Theorem execute_twice
    (self : CourseSearchTool) (query : string)
    (course_name : option string) (lesson_number : option Z) :
  let once := execute self query course_name lesson_number in
  let twice := execute (self_after once) query course_name lesson_number in
  returned twice = returned once /\
  self_after twice = self_after once /\
  link_calls twice = link_calls once.
Proof.
  intros once twice. subst once twice.
  destruct (execute_cases self query course_name lesson_number)
    as [(_ & Hself & _) | (Hpath & Hfmt)].
  - by rewrite Hself.
  - rewrite format_results_fields in Hfmt. rewrite !Hfmt.
    cbn [self_after returned link_calls].
    match goal with
    | |- context [execute ?t _ _ _] =>
        destruct (execute_cases t query course_name lesson_number)
          as [(Hpath' & _) | (_ & ->)]
    end.
    + cbn [store] in Hpath'. congruence.
    + rewrite format_results_fields. cbn [store returned self_after link_calls].
      done.
Qed.

(** ** ToolManager: registration order, polling, resetting *)

Section DictOrder.

Context {V : Type}.
Implicit Types (d : list (string * V)) (k : string) (v : V).

Lemma dict_get_None d k : dict_get d k = None <-> k ∉ map fst d.
Proof.
  induction d as [|[k' v'] d IH]; simpl.
  - split; [intros _; apply not_elem_of_nil | done].
  - rewrite not_elem_of_cons. destruct (decide (k' = k)) as [->|Hne].
    + split; [done | by intros [? _]].
    + rewrite IH. split; [intros ?; split; [congruence | done] | by intros [_ ?]].
Qed.

Lemma dict_get_elem_of d k v : dict_get d k = Some v -> (k, v) ∈ d.
Proof.
  induction d as [|[k' v'] d IH]; simpl; [done |].
  destruct (decide (k' = k)) as [->|Hne].
  - intros [= ->]. apply list_elem_of_here.
  - intros H. by apply list_elem_of_further, IH.
Qed.

Lemma dict_set_new d k v : dict_get d k = None -> dict_set d k v = d ++ [(k, v)].
Proof.
  induction d as [|[k' v'] d IH]; simpl; [done |].
  destruct (decide (k' = k)); [done |]. intros H. by rewrite IH.
Qed.

Lemma dict_set_elem_of d k v (e : string * V) :
  e ∈ dict_set d k v -> e = (k, v) \/ e ∈ d.
Proof.
  induction d as [|[k' v'] d IH]; simpl.
  - intros ->%list_elem_of_singleton. by left.
  - destruct (decide (k' = k)) as [->|Hne]; rewrite !elem_of_cons.
    + intros [-> | H]; [by left | by right; right].
    + intros [-> | H]; [by right; left |].
      destruct (IH H); [by left | by right; right].
Qed.

Lemma dict_set_NoDup d k v : NoDup (map fst d) -> NoDup (map fst (dict_set d k v)).
Proof.
  intros Hd. destruct (dict_get d k) as [v0|] eqn:Hk.
  - by rewrite dict_set_keys by eauto.
  - rewrite dict_set_new, map_app by done. simpl.
    apply NoDup_app. split; [done |]. split; [|apply NoDup_singleton].
    intros k' Hk' ->%list_elem_of_singleton. by apply dict_get_None in Hk.
Qed.

End DictOrder.

(** What a registration that succeeds has found and done. *)
Lemma register_tool_Return (h : gmap nat tool_obj) (self self' : ToolManager)
    (tool : nat) :
  register_tool h self tool = Return self' ->
  exists (o : tool_obj) (name : string),
    h !! tool = Some o /\
    dict_get (obj_definition o) "name" = Some (JStr name) /\
    name <> "" /\
    tools self' = dict_set (tools self) name tool.
Proof.
  unfold register_tool. destruct (h !! tool) as [o|]; [|done].
  destruct (dict_get (obj_definition o) "name") as [[| | |name| |]|] eqn:Hname;
    simpl; try done.
  - destruct b; done.
  - destruct (negb (n =? 0)); done.
  - destruct name as [|ch name]; [done |]. intros [= <-].
    exists o, (String ch name). by rewrite Hname.
  - destruct items; done.
  - destruct fields; done.
Qed.

(** X5: a manager built from an empty one by registrations that all
    succeed has distinct, non-empty names, and every name is the name in
    the definition of the tool registered under it. *)
Theorem register_all_invariant
    (h : gmap nat tool_obj) (new_tools : list nat) (self : ToolManager) :
  register_all h ToolManager_init new_tools = Return self ->
  NoDup (map fst (tools self)) /\ Forall (entry_ok h) (tools self).
Proof.
  assert (forall m,
    NoDup (map fst (tools m)) -> Forall (entry_ok h) (tools m) ->
    register_all h m new_tools = Return self ->
    NoDup (map fst (tools self)) /\ Forall (entry_ok h) (tools self)) as Hall.
  { induction new_tools as [|tool rest IH]; intros m Hnd Hok; simpl.
    - by intros [= <-].
    - destruct (register_tool h m tool) as [m'| |] eqn:Hreg; try done.
      simpl. apply IH.
      + apply register_tool_Return in Hreg as (o & name & _ & _ & _ & ->).
        by apply dict_set_NoDup.
      + apply register_tool_Return in Hreg as (o & name & Ho & Hname & Hne & ->).
        apply Forall_forall. intros e [-> | He]%dict_set_elem_of.
        * split; [done | by exists o].
        * by apply (proj1 (Forall_forall _ _) Hok). }
  apply Hall; [apply NoDup_nil_2 | constructor].
Qed.

Lemma register_all_invariant_witness :
  register_all sample_heap ToolManager_init [0%nat; 3%nat; 1%nat] =
    Return {| tools := [("search_course_content", 3%nat);
                        ("get_course_outline", 1%nat)] |} /\
  NoDup (map fst [("search_course_content", 3%nat); ("get_course_outline", 1%nat)]) /\
  Forall (entry_ok sample_heap)
    [("search_course_content", 3%nat); ("get_course_outline", 1%nat)].
Proof.
  split; [reflexivity |].
  apply (register_all_invariant sample_heap [0%nat; 3%nat; 1%nat]
           {| tools := [("search_course_content", 3%nat);
                        ("get_course_outline", 1%nat)] |}).
  reflexivity.
Defined.

(** X6: a successful registration under a name that is new puts the name
    and the tool's definition at the end of what the manager lists; under a
    name that is already registered it keeps the names and their order. *)
Theorem register_tool_listing
    (h : gmap nat tool_obj) (self self' : ToolManager) (tool : nat) :
  register_tool h self tool = Return self' ->
  exists (o : tool_obj) (name : string),
    h !! tool = Some o /\
    dict_get (obj_definition o) "name" = Some (JStr name) /\
    (dict_get (tools self) name = None ->
       map fst (tools self') = map fst (tools self) ++ [name] /\
       get_tool_definitions h self' =
         get_tool_definitions h self ++ [obj_definition o]) /\
    (is_Some (dict_get (tools self) name) ->
       map fst (tools self') = map fst (tools self)).
Proof.
  intros (o & name & Ho & Hname & _ & Htools)%register_tool_Return.
  exists o, name. repeat split; try done.
  - rewrite Htools, dict_set_new, map_app by done. done.
  - unfold get_tool_definitions, dict_values.
    rewrite Htools, dict_set_new, map_app, omap_app by done.
    simpl. by rewrite Ho.
  - intros Hbound. rewrite Htools. by apply dict_set_keys.
Qed.

Lemma register_tool_listing_witness :
  register_tool sample_heap {| tools := [("search_course_content", 0%nat)] |} 1%nat =
    Return sample_manager /\
  exists (o : tool_obj) (name : string),
    sample_heap !! 1%nat = Some o /\
    dict_get (obj_definition o) "name" = Some (JStr name) /\
    (dict_get [("search_course_content", 0%nat)] name = None ->
       map fst (tools sample_manager) = ["search_course_content"] ++ [name] /\
       get_tool_definitions sample_heap sample_manager =
         get_tool_definitions sample_heap
           {| tools := [("search_course_content", 0%nat)] |} ++ [obj_definition o]) /\
    (is_Some (dict_get [("search_course_content", 0%nat)] name) ->
       map fst (tools sample_manager) = ["search_course_content"]).
Proof.
  split; [reflexivity |].
  apply (register_tool_listing sample_heap
           {| tools := [("search_course_content", 0%nat)] |} sample_manager 1%nat).
  reflexivity.
Defined.

(** No citations at an address: no live tool, no attribute, or an empty
    list. *)
Lemma first_sources_skip (h : gmap nat tool_obj) (a : nat) (values : list nat) :
  h !! a ≫= obj_last_sources = None \/ h !! a ≫= obj_last_sources = Some [] ->
  first_sources h (a :: values) = first_sources h values.
Proof. simpl. by intros [-> | ->]. Qed.

Lemma first_sources_take (h : gmap nat tool_obj) (a : nat) (values : list nat)
    (sources : list Source) :
  h !! a ≫= obj_last_sources = Some sources -> sources <> [] ->
  first_sources h (a :: values) = sources.
Proof. simpl. intros -> Hne. by destruct sources. Qed.

Lemma first_sources_split (h : gmap nat tool_obj) (values : list nat) :
  first_sources h values <> [] ->
  exists (before : list nat) (a : nat) (after : list nat),
    values = before ++ a :: after /\
    (forall b, b ∈ before ->
       h !! b ≫= obj_last_sources = None \/
       h !! b ≫= obj_last_sources = Some []) /\
    h !! a ≫= obj_last_sources = Some (first_sources h values).
Proof.
  induction values as [|a values IH]; [done |].
  destruct (h !! a ≫= obj_last_sources) as [[|s sources]|] eqn:Ha.
  - rewrite first_sources_skip by auto. intros H.
    destruct (IH H) as (before & a' & after & -> & Hbefore & Ha').
    exists (a :: before), a', after. split; [done |]. split; [|done].
    intros b [-> | Hb]%elem_of_cons; auto.
  - intros _. exists [], a, values. split; [done |].
    split; [intros b Hb; by apply not_elem_of_nil in Hb |].
    by rewrite (first_sources_take h a values (s :: sources)).
  - rewrite first_sources_skip by auto. intros H.
    destruct (IH H) as (before & a' & after & -> & Hbefore & Ha').
    exists (a :: before), a', after. split; [done |]. split; [|done].
    intros b [-> | Hb]%elem_of_cons; auto.
Qed.

(** X7: [get_last_sources] returns the empty list exactly when no
    registered tool holds a non-empty [last_sources]; otherwise it returns
    the list of the first registered tool, in registration order, that
    holds a non-empty one. *)
Theorem get_last_sources_first_nonempty
    (h : gmap nat tool_obj) (self : ToolManager) :
  (get_last_sources h self = [] <->
   forall a, a ∈ dict_values (tools self) ->
     h !! a ≫= obj_last_sources = None \/
     h !! a ≫= obj_last_sources = Some []) /\
  (get_last_sources h self <> [] ->
   exists (before : list nat) (a : nat) (after : list nat),
     dict_values (tools self) = before ++ a :: after /\
     (forall b, b ∈ before ->
        h !! b ≫= obj_last_sources = None \/
        h !! b ≫= obj_last_sources = Some []) /\
     h !! a ≫= obj_last_sources = Some (get_last_sources h self)).
Proof.
  unfold get_last_sources. split; [|apply first_sources_split].
  split; [|apply first_sources_nil].
  induction (dict_values (tools self)) as [|a values IH]; intros Hnil b Hb.
  - by apply not_elem_of_nil in Hb.
  - destruct (h !! a ≫= obj_last_sources) as [[|s sources]|] eqn:Ha.
    + rewrite first_sources_skip in Hnil by auto.
      apply elem_of_cons in Hb as [-> | Hb]; auto.
    + by rewrite (first_sources_take h a values (s :: sources)) in Hnil.
    + rewrite first_sources_skip in Hnil by auto.
      apply elem_of_cons in Hb as [-> | Hb]; auto.
Qed.

Lemma cleared_definition (o : tool_obj) : obj_definition (cleared o) = obj_definition o.
Proof.
  destruct o as [t|t]; [done |].
  unfold cleared. simpl. by destruct (other_last_sources t).
Qed.

Lemma cleared_without_attribute (o : tool_obj) :
  obj_last_sources o = None -> cleared o = o.
Proof. unfold cleared. by intros ->. Qed.

(** X8: [reset_sources] changes nothing but the citation lists of the
    registered tools: a tool that is not registered, and a tool without a
    [last_sources] attribute, stay as they are; the definitions the manager
    lists are the same; and a second reset changes nothing. *)
Theorem reset_sources_frame (h : gmap nat tool_obj) (self : ToolManager) :
  (forall a, a ∉ dict_values (tools self) -> reset_sources h self !! a = h !! a) /\
  (forall a o, h !! a = Some o -> obj_last_sources o = None ->
     reset_sources h self !! a = Some o) /\
  get_tool_definitions (reset_sources h self) self = get_tool_definitions h self /\
  reset_sources (reset_sources h self) self = reset_sources h self.
Proof.
  unfold reset_sources. repeat split.
  - intros a Ha. by rewrite reset_loop_lookup, bool_decide_false.
  - intros a o Ho Hattr. rewrite reset_loop_lookup, Ho. simpl.
    rewrite cleared_without_attribute by done. by case_bool_decide.
  - unfold get_tool_definitions.
    assert (forall a, obj_definition <$> reset_loop h (dict_values (tools self)) !! a
                      = obj_definition <$> h !! a) as Hdef.
    { intros a. rewrite reset_loop_lookup. case_bool_decide; [|done].
      destruct (h !! a); simpl; [|done]. by rewrite cleared_definition. }
    set (h' := reset_loop h (dict_values (tools self))) in *. clearbody h'.
    induction (dict_values (tools self)) as [|a values IH]; [done |].
    simpl. rewrite Hdef.
    destruct (obj_definition <$> h !! a); [f_equal |]; exact IH.
  - apply map_eq. intros a. rewrite !reset_loop_lookup.
    case_bool_decide; [|done].
    destruct (h !! a); simpl; [|done]. by rewrite cleared_idemp.
Qed.

Lemma obj_execute_definition (o : tool_obj) (kwargs : list (string * json)) :
  obj_definition (obj_execute o kwargs).2 = obj_definition o.
Proof.
  destruct o as [t|t]; simpl; [|done].
  by destruct (bind_execute_kwargs kwargs) as [[[q c] l]| |].
Qed.

(** X9: [execute_tool] changes no tool but the one registered under the
    name it is given (none when the name is unknown): every other tool is
    as before, no tool appears or disappears, and the definitions the
    manager lists are the same. *)
Theorem execute_tool_frame
    (h : gmap nat tool_obj) (self : ToolManager) (tool_name : string)
    (kwargs : list (string * json)) :
  (forall b, dict_get (tools self) tool_name <> Some b ->
     (execute_tool h self tool_name kwargs).2 !! b = h !! b) /\
  (forall b, is_Some ((execute_tool h self tool_name kwargs).2 !! b) <->
             is_Some (h !! b)) /\
  get_tool_definitions (execute_tool h self tool_name kwargs).2 self =
    get_tool_definitions h self.
Proof.
  destruct (collides kwargs) eqn:Hcollide;
    [by rewrite execute_tool_colliding | rewrite execute_tool_binding by done].
  destruct (dict_get (tools self) tool_name) as [a|]; [|done].
  destruct (h !! a) as [o|] eqn:Ho; [|done].
  destruct (obj_execute o kwargs) as [r o'] eqn:Hrun. simpl.
  assert (obj_definition o' = obj_definition o) as Hdef.
  { by rewrite <- (obj_execute_definition o kwargs), Hrun. }
  repeat split.
  - intros b Hb. rewrite lookup_insert_ne; [done | congruence].
  - destruct (decide (a = b)) as [->|Hne].
    + by rewrite Ho.
    + by rewrite lookup_insert_ne.
  - destruct (decide (a = b)) as [->|Hne].
    + by rewrite lookup_insert_eq.
    + by rewrite lookup_insert_ne.
  - unfold get_tool_definitions.
    induction (dict_values (tools self)) as [|b values IH]; [done |].
    simpl.
    assert (obj_definition <$> <[a:=o']> h !! b = obj_definition <$> h !! b) as ->.
    { destruct (decide (a = b)) as [->|Hne].
      - by rewrite lookup_insert_eq, Ho; simpl; rewrite Hdef.
      - by rewrite lookup_insert_ne. }
    destruct (obj_definition <$> h !! b); [f_equal |]; exact IH.
Qed.

Lemma first_sources_only (h : gmap nat tool_obj) (values : list nat) (a : nat)
    (sources : list Source) :
  a ∈ values ->
  h !! a ≫= obj_last_sources = Some sources ->
  (forall b, b ∈ values -> b <> a ->
     h !! b ≫= obj_last_sources = None \/
     h !! b ≫= obj_last_sources = Some []) ->
  first_sources h values = sources.
Proof.
  intros Ha Hsources Hothers. destruct sources as [|s sources].
  - apply first_sources_nil. intros b Hb.
    destruct (decide (b = a)) as [->|Hne]; auto.
  - induction values as [|b values IH]; [by apply not_elem_of_nil in Ha |].
    destruct (decide (b = a)) as [->|Hne].
    + by apply first_sources_take.
    + rewrite first_sources_skip.
      * apply elem_of_cons in Ha as [-> | Ha]; [done |].
        apply IH; [done |]. intros c Hc. apply Hothers. by right.
      * apply Hothers; [by left | done].
Qed.

Lemma dict_get_value {V} (d : list (string * V)) (k : string) (v : V) :
  dict_get d k = Some v -> v ∈ dict_values d.
Proof.
  intros H%dict_get_elem_of. unfold dict_values.
  apply list_elem_of_In, in_map_iff. exists (k, v).
  split; [done | by apply list_elem_of_In].
Qed.

(** Keyword arguments that [CourseSearchTool.execute] accepts do not
    collide with the parameters of [execute_tool]. *)
Lemma bind_kwargs_no_collision (kwargs : list (string * json))
    (bound : string * option string * option Z) :
  bind_execute_kwargs kwargs = Return bound -> collides kwargs = false.
Proof.
  unfold bind_execute_kwargs, collides.
  destruct (forallb _ kwargs) eqn:Hall; [|done]. intros _.
  apply not_true_is_false. intros (kv & Hkv & Hkey)%existsb_exists.
  rewrite forallb_forall in Hall. apply Hall in Hkv.
  apply bool_decide_eq_true in Hkey.
  apply elem_of_cons in Hkey as [Hc | Hkey];
    [| apply elem_of_cons in Hkey as [Hc | Hkey];
       [| by apply not_elem_of_nil in Hkey]];
    rewrite Hc in Hkv; vm_compute in Hkv; discriminate.
Qed.

(** X10: the way a query is served.  After [reset_sources], one call of
    the search tool through [execute_tool] makes [get_last_sources] return
    exactly the citations of that search, one per hit; it returns the empty
    list when the search carried an error or had no documents. *)
Theorem sources_after_reset_and_search
    (h : gmap nat tool_obj) (self : ToolManager) (tool_name : string)
    (a : nat) (t : CourseSearchTool) (kwargs : list (string * json))
    (query : string) (course_name : option string) (lesson_number : option Z) :
  dict_get (tools self) tool_name = Some a ->
  h !! a = Some (SearchObj t) ->
  bind_execute_kwargs kwargs = Return (query, course_name, lesson_number) ->
  get_last_sources
    (execute_tool (reset_sources h self) self tool_name kwargs).2 self =
  if truthy_opt_str (error (search (store t) query course_name lesson_number))
     || is_empty (search (store t) query course_name lesson_number)
  then []
  else map (hit_citation (store t))
           (hits (search (store t) query course_name lesson_number)).
Proof.
  intros Hname Ha Hbind.
  pose proof (dict_get_value _ _ _ Hname) as Hin.
  assert (reset_sources h self !! a =
          Some (SearchObj {| store := store t; last_sources := [] |})) as Ha'.
  { unfold reset_sources. by rewrite reset_loop_lookup, bool_decide_true, Ha. }
  rewrite execute_tool_binding by (by eapply bind_kwargs_no_collision).
  rewrite Hname, Ha'. simpl. rewrite Hbind. simpl.
  set (t0 := {| store := store t; last_sources := [] |}).
  unfold get_last_sources.
  apply first_sources_only with (a := a); [done | |].
  - rewrite lookup_insert_eq. simpl. f_equal.
    pose proof (execute_cases t0 query course_name lesson_number) as Hcases.
    cbv zeta in Hcases. subst t0. cbn [store] in Hcases.
    destruct Hcases as [(-> & -> & _) | (-> & ->)]; [done |].
    by rewrite format_results_fields.
  - intros b Hb Hne. rewrite lookup_insert_ne by done.
    unfold reset_sources. rewrite reset_loop_lookup, bool_decide_true by done.
    destruct (h !! b) as [o|]; simpl; [apply cleared_sources | by left].
Qed.

Lemma sources_after_reset_and_search_witness :
  dict_get (tools sample_manager) "search_course_content" = Some 0%nat /\
  heap_after_search !! 0%nat =
    Some (SearchObj (self_after
      (execute (CourseSearchTool_init sample_store) "mcp" None None))) /\
  bind_execute_kwargs [("query", JStr "mcp")] = Return ("mcp", None, None) /\
  get_last_sources
    (execute_tool (reset_sources heap_after_search sample_manager) sample_manager
       "search_course_content" [("query", JStr "mcp")]).2 sample_manager =
  [{| text := "Intro to MCP - Lesson 1";
      link := Some "https://example.com/lesson1" |};
   {| text := "Web Dev - Lesson 2"; link := None |}].
Proof.
  split; [reflexivity |].
  split; [reflexivity |].
  split; [reflexivity |].
  apply (sources_after_reset_and_search heap_after_search sample_manager
           "search_course_content" 0%nat
           (self_after (execute (CourseSearchTool_init sample_store) "mcp" None None))
           [("query", JStr "mcp")] "mcp" None None); reflexivity.
Defined.

(** X11: [execute_tool] does not turn a bad argument list into an answer.
    When the search tool is called without [query], or with a keyword its
    [execute] does not take, the [TypeError] of the call escapes and no
    tool has changed. *)
Theorem execute_tool_bad_arguments
    (h : gmap nat tool_obj) (self : ToolManager) (tool_name : string)
    (a : nat) (t : CourseSearchTool) (kwargs : list (string * json)) :
  dict_get (tools self) tool_name = Some a ->
  h !! a = Some (SearchObj t) ->
  dict_get kwargs "query" = None \/
  (exists kv, kv ∈ kwargs /\
              kv.1 ∉ ["query"; "course_name"; "lesson_number"]) ->
  execute_tool h self tool_name kwargs = (Raise TypeError, h).
Proof.
  intros Hname Ha Hbad.
  destruct (collides kwargs) eqn:Hcollide;
    [by apply execute_tool_colliding | rewrite execute_tool_binding by done].
  rewrite Hname, Ha. simpl.
  assert (bind_execute_kwargs kwargs = Raise TypeError) as ->.
  { unfold bind_execute_kwargs.
    destruct (forallb _ kwargs) eqn:Hall; [|done].
    destruct Hbad as [-> | (kv & Hkv & Hkey)]; [done |].
    rewrite forallb_forall in Hall.
    apply list_elem_of_In, Hall, bool_decide_eq_true in Hkv. done. }
  by rewrite insert_id.
Qed.

Lemma execute_tool_bad_arguments_witness :
  dict_get (tools sample_manager) "search_course_content" = Some 0%nat /\
  sample_heap !! 0%nat = Some (SearchObj (CourseSearchTool_init sample_store)) /\
  dict_get [("course_name", JStr "MCP")] "query" = None /\
  execute_tool sample_heap sample_manager "search_course_content"
    [("course_name", JStr "MCP")] = (Raise TypeError, sample_heap).
Proof.
  split; [reflexivity |].
  split; [reflexivity |].
  split; [reflexivity |].
  apply (execute_tool_bad_arguments sample_heap sample_manager
           "search_course_content" 0%nat (CourseSearchTool_init sample_store)
           [("course_name", JStr "MCP")]); [reflexivity | reflexivity |].
  left. reflexivity.
Defined.

(** ** CourseOutlineTool: other lesson lists *)

(** X12: whenever the stored lesson list parses to a falsy value, not only
    the empty list but also [null], [false], zero, the empty string or the
    empty object, [_format_outline] returns the header lines followed by
    [No lesson information available.]. *)
Theorem format_outline_falsy_lessons
    (json_loads : string -> option json) (metadata : CourseMeta) (v : json) :
  json_loads (default "[]" (lessons_json metadata)) = Some v ->
  truthy v = false ->
  _format_outline json_loads metadata =
  Return (String.concat LF
            (course_header metadata ++ [LF +:+ "No lesson information available."])).
Proof.
  intros Hloads Hfalsy. unfold _format_outline, lessons_section.
  by rewrite Hloads, Hfalsy.
Qed.

Lemma format_outline_falsy_lessons_witness :
  sample_loads' (default "[]" (lessons_json null_course)) = Some JNull /\
  truthy JNull = false /\
  _format_outline sample_loads' null_course =
  Return (String.concat LF
            (course_header null_course ++ [LF +:+ "No lesson information available."])).
Proof.
  split; [reflexivity |].
  split; [reflexivity |].
  apply (format_outline_falsy_lessons sample_loads' null_course JNull); reflexivity.
Defined.

Lemma all_dicts_raises (items : list json) :
  (exists item, item ∈ items /\ forall d, item <> JObj d) ->
  all_dicts items = Raise AttributeError.
Proof.
  intros (item & Hin & Hnot).
  induction items as [|v items IH]; [by apply not_elem_of_nil in Hin |].
  simpl. destruct v as [| | | | |d]; try done.
  apply elem_of_cons in Hin as [-> | Hin]; [by destruct (Hnot d) |].
  rewrite (IH Hin). simpl. done.
Qed.

(** X13: [_format_outline] catches the decode error of [json.loads] only.
    A lesson list that parses to a truthy value other than a list makes it
    raise ([TypeError] for a number or [true], whose [len] does not exist;
    [AttributeError] for a string or an object, whose elements have no
    [get]), and so does a list with an element that is not an object
    ([AttributeError]). *)
Theorem format_outline_raises
    (json_loads : string -> option json) (metadata : CourseMeta) (v : json) :
  json_loads (default "[]" (lessons_json metadata)) = Some v ->
  truthy v = true ->
  (forall items, v = JArr items ->
     exists item, item ∈ items /\ forall d, item <> JObj d) ->
  _format_outline json_loads metadata =
  Raise match v with
        | JArr _ | JStr _ | JObj _ => AttributeError
        | _ => TypeError
        end.
Proof.
  intros Hloads Htruthy Hitems. unfold _format_outline, lessons_section.
  rewrite Hloads, Htruthy.
  destruct v as [| b | n | s | items | fields]; try done.
  unfold sorted_lessons. by rewrite all_dicts_raises by eauto.
Qed.

Lemma format_outline_raises_witness :
  sample_loads' (default "[]" (lessons_json odd_course)) = Some (JArr [JInt 7]) /\
  truthy (JArr [JInt 7]) = true /\
  (forall items, JArr [JInt 7] = JArr items ->
     exists item, item ∈ items /\ forall d, item <> JObj d) /\
  _format_outline sample_loads' odd_course = Raise AttributeError.
Proof.
  assert (forall items, JArr [JInt 7] = JArr items ->
            exists item, item ∈ items /\ forall d, item <> JObj d) as Hitems.
  { intros items [= <-]. exists (JInt 7).
    split; [apply list_elem_of_here | discriminate]. }
  split; [reflexivity |].
  split; [reflexivity |].
  split; [exact Hitems |].
  apply (format_outline_raises sample_loads' odd_course (JArr [JInt 7]));
    [reflexivity | reflexivity | exact Hitems].
Defined.

(** *** Lessons with missing fields *)

Lemma loose_key (d : list (string * json)) (l : LooseLesson) :
  decode_loose_dict d = Some l ->
  lesson_key d = JInt (default 0 (loose_number l)).
Proof.
  unfold decode_loose_dict, lesson_key. intros H.
  destruct (dict_get d "lesson_number") as [[| |n| | |]|]; simplify_option_eq;
    done.
Qed.

Lemma loose_parts (d : list (string * json)) (l : LooseLesson) :
  decode_loose_dict d = Some l -> lesson_parts d = Return (loose_bullet l).
Proof.
  unfold decode_loose_dict, lesson_parts, loose_bullet. intros H.
  destruct (dict_get d "lesson_number") as [[| |n| | |]|];
    destruct (dict_get d "lesson_title") as [[| | |t| |]|];
    destruct (dict_get d "lesson_link") as [[| | |u| |]|];
    simplify_option_eq; try done; simpl; by destruct (truthy_str u).
Qed.

Lemma loose_le (d d' : list (string * json)) (l l' : LooseLesson) :
  decode_loose_dict d = Some l -> decode_loose_dict d' = Some l' ->
  le_by_number d d' = le_loose l l'.
Proof.
  intros H H'. unfold le_by_number, le_loose.
  by rewrite (loose_key d l H), (loose_key d' l' H').
Qed.

Lemma loose_sorted_lessons (items : list json) (lessons : list LooseLesson) :
  Forall2 (fun v l => decode_loose v = Some l) items lessons ->
  exists ds, sorted_lessons items = Return ds /\
    Forall2 (fun d l => decode_loose_dict d = Some l)
            ds (stable_sort le_loose lessons).
Proof.
  intros H.
  assert (exists ds, all_dicts items = Return ds /\
            Forall2 (fun d l => decode_loose_dict d = Some l) ds lessons)
    as (ds & Hds & Hdec).
  { induction H as [|v l items lessons Hv _ (ds & Hds & IH)]; simpl.
    - by exists [].
    - destruct v as [| | | | |d]; try done.
      exists (d :: ds). rewrite Hds. simpl. split; [done | by constructor]. }
  assert (forallb (fun k => bool_decide (is_Some (key_number k)))
            (map lesson_key ds) = true) as Hkeys.
  { clear H Hds. induction Hdec as [|d l ds lessons Hd _ IH]; simpl; [done |].
    by rewrite (loose_key d l Hd), IH. }
  exists (stable_sort le_by_number ds). split.
  - unfold sorted_lessons. rewrite Hds. simpl.
    destruct ds as [|d1 [|d2 ds]]; [done | done |]. by rewrite Hkeys.
  - apply stable_sort_together with (leA := le_by_number) (leB := le_loose);
      [apply loose_le | done].
Qed.

(** X14: lessons with missing fields are rendered, not refused.  A lesson
    without [lesson_number] is sorted as if its number were zero and shown
    as [N/A]; a lesson without [lesson_title] is shown as
    [Untitled Lesson]; the count header still counts every lesson. *)
Theorem format_outline_missing_fields
    (json_loads : string -> option json) (metadata : CourseMeta)
    (items : list json) (lessons : list LooseLesson) :
  json_loads (default "[]" (lessons_json metadata)) = Some (JArr items) ->
  mapM decode_loose items = Some lessons ->
  lessons <> [] ->
  _format_outline json_loads metadata =
  Return (String.concat LF
            (course_header metadata ++
             count_header (length lessons) ::
             concat (map loose_bullet (stable_sort le_loose lessons)))).
Proof.
  intros Hloads Hdec Hne. apply mapM_Some in Hdec.
  destruct (loose_sorted_lessons items lessons Hdec) as (ds & Hsorted & Hds).
  unfold _format_outline. rewrite Hloads. unfold lessons_section.
  assert (truthy (JArr items) = true) as ->.
  { destruct Hdec; [done | reflexivity]. }
  rewrite Hsorted. simpl.
  assert (lessons_loop ds =
          Return (concat (map loose_bullet (stable_sort le_loose lessons)))) as ->.
  { clear Hsorted. induction Hds as [|d l ds ls Hd _ IH]; simpl; [done |].
    by rewrite (loose_parts d l Hd), IH. }
  simpl. by rewrite (Forall2_length _ _ _ Hdec).
Qed.

Lemma format_outline_missing_fields_witness :
  let lessons :=
    [{| loose_number := Some 3; loose_title := Some "Wrap-up"; loose_link := None |};
     {| loose_number := None; loose_title := None; loose_link := None |}] in
  (exists items,
     sample_loads' (default "[]" (lessons_json sparse_course)) = Some (JArr items) /\
     mapM decode_loose items = Some lessons) /\
  lessons <> [] /\
  _format_outline sample_loads' sparse_course =
  Return (String.concat LF
            (course_header sparse_course ++
             count_header (length lessons) ::
             concat (map loose_bullet (stable_sort le_loose lessons)))).
Proof.
  intros lessons.
  split; [eexists; split; reflexivity |].
  split; [discriminate |].
  eapply (format_outline_missing_fields sample_loads' sparse_course);
    [reflexivity | reflexivity | discriminate].
Defined.

Example outline_of_sparse_course :
  _format_outline sample_loads' sparse_course =
  Return ("**Unknown Course**" +:+ LF +:+ LF +:+
          "**Course Outline (2 lessons):**" +:+ LF +:+
          "• Lesson N/A: Untitled Lesson" +:+ LF +:+
          "• Lesson 3: Wrap-up").
Proof. reflexivity. Qed.

(** *** The order of the bullets *)

Section SortedInput.

Context {A : Type}.
Variable le : A -> A -> bool.
Variable R : A -> A -> Prop.
Hypothesis le_complete : forall a b, R a b -> le a b = true.

(** Sorting a list that is in order returns it as it is. *)
Lemma stable_sort_of_sorted (l : list A) :
  StronglySorted R l -> stable_sort le l = l.
Proof.
  induction 1 as [|x l Hl IH Hx]; [done |].
  change (stable_sort le (x :: l)) with (insert_sorted le x (stable_sort le l)).
  rewrite IH. destruct Hx as [|y l Hxy _]; [done |].
  simpl. by rewrite le_complete.
Qed.

End SortedInput.

(** X15: a lesson list that is stored in ascending order of lesson number,
    lessons of equal number included, is rendered in the order it is
    stored. *)
Theorem format_outline_keeps_stored_order
    (json_loads : string -> option json) (metadata : CourseMeta)
    (items : list json) (lessons : list Lesson) :
  json_loads (default "[]" (lessons_json metadata)) = Some (JArr items) ->
  mapM decode_lesson items = Some lessons ->
  lessons <> [] ->
  StronglySorted (fun a b => lesson_number a <= lesson_number b) lessons ->
  _format_outline json_loads metadata =
  Return (String.concat LF
            (course_header metadata ++
             count_header (length lessons) ::
             concat (map lesson_bullet lessons))).
Proof.
  intros Hloads Hdec Hne Hsorted. apply mapM_Some in Hdec.
  destruct (sorted_lessons_decoded items lessons Hdec) as (ds & Hds & Hrel).
  rewrite (stable_sort_of_sorted le_lesson
             (fun a b => lesson_number a <= lesson_number b)) in Hrel;
    [| intros a b; unfold le_lesson; lia | exact Hsorted].
  unfold _format_outline. rewrite Hloads. unfold lessons_section.
  assert (truthy (JArr items) = true) as ->.
  { destruct Hdec; [done | reflexivity]. }
  rewrite Hds. simpl. rewrite (lessons_loop_decoded _ _ Hrel). simpl.
  by rewrite (Forall2_length _ _ _ Hdec).
Qed.

Lemma format_outline_keeps_stored_order_witness :
  let lessons :=
    [{| lesson_number := 1; lesson_title := "Intro"; lesson_link := None |};
     {| lesson_number := 1; lesson_title := "Intro, continued";
        lesson_link := None |}] in
  (exists items,
     sample_loads' (default "[]" (lessons_json ordered_course)) = Some (JArr items) /\
     mapM decode_lesson items = Some lessons) /\
  lessons <> [] /\
  StronglySorted (fun a b => lesson_number a <= lesson_number b) lessons /\
  _format_outline sample_loads' ordered_course =
  Return (String.concat LF
            (course_header ordered_course ++
             count_header (length lessons) ::
             concat (map lesson_bullet lessons))).
Proof.
  intros lessons.
  assert (StronglySorted (fun a b => lesson_number a <= lesson_number b) lessons)
    as Hsorted by (repeat constructor; done).
  split; [eexists; split; reflexivity |].
  split; [discriminate |].
  split; [exact Hsorted |].
  eapply (format_outline_keeps_stored_order sample_loads' ordered_course);
    [reflexivity | reflexivity | discriminate | exact Hsorted].
Defined.

Lemma format_outline_of_lessons
    (json_loads : string -> option json) (metadata : CourseMeta)
    (items : list json) (lessons : list Lesson) :
  json_loads (default "[]" (lessons_json metadata)) = Some (JArr items) ->
  Forall2 (fun v l => decode_lesson v = Some l) items lessons ->
  lessons <> [] ->
  _format_outline json_loads metadata =
  Return (String.concat LF
            (course_header metadata ++
             count_header (length lessons) ::
             concat (map lesson_bullet (stable_sort le_lesson lessons)))).
Proof.
  intros Hloads Hdec Hne.
  destruct (sorted_lessons_decoded items lessons Hdec) as (ds & Hds & Hrel).
  unfold _format_outline. rewrite Hloads. unfold lessons_section.
  assert (truthy (JArr items) = true) as ->.
  { destruct Hdec; [done | reflexivity]. }
  rewrite Hds. simpl. rewrite (lessons_loop_decoded _ _ Hrel). simpl.
  by rewrite (Forall2_length _ _ _ Hdec).
Qed.

Lemma distinct_numbers_inj (lessons : list Lesson) (a b : Lesson) :
  NoDup (map lesson_number lessons) ->
  a ∈ lessons -> b ∈ lessons -> lesson_number a = lesson_number b -> a = b.
Proof.
  induction lessons as [|l lessons IH]; simpl.
  - intros _ Ha. by apply not_elem_of_nil in Ha.
  - intros [Hl Hnd]%NoDup_cons [-> | Ha]%elem_of_cons [-> | Hb]%elem_of_cons Heq.
    + done.
    + destruct Hl. rewrite Heq. apply list_elem_of_In, in_map, list_elem_of_In, Hb.
    + destruct Hl. rewrite <- Heq.
      apply list_elem_of_In, in_map, list_elem_of_In, Ha.
    + by apply IH.
Qed.

(** X16: when the lesson numbers of a course are all different, the order
    in which the lessons are stored does not show: two catalog entries with
    the same header fields and the same lessons, stored in any two orders,
    have the same outline. *)
Theorem format_outline_order_independent
    (json_loads : string -> option json) (metadata1 metadata2 : CourseMeta)
    (items1 items2 : list json) (lessons1 lessons2 : list Lesson) :
  json_loads (default "[]" (lessons_json metadata1)) = Some (JArr items1) ->
  json_loads (default "[]" (lessons_json metadata2)) = Some (JArr items2) ->
  mapM decode_lesson items1 = Some lessons1 ->
  mapM decode_lesson items2 = Some lessons2 ->
  course_header metadata1 = course_header metadata2 ->
  Permutation lessons1 lessons2 ->
  NoDup (map lesson_number lessons1) ->
  _format_outline json_loads metadata1 = _format_outline json_loads metadata2.
Proof.
  intros Hloads1 Hloads2 Hdec1 Hdec2 Hheader Hperm Hnd.
  apply mapM_Some in Hdec1. apply mapM_Some in Hdec2.
  destruct lessons1 as [|l1 lessons1].
  { apply Permutation_nil in Hperm as ->.
    apply Forall2_nil_inv_r in Hdec1 as ->.
    apply Forall2_nil_inv_r in Hdec2 as ->.
    unfold _format_outline. by rewrite Hloads1, Hloads2, Hheader. }
  assert (lessons2 <> []) as Hne2.
  { intros ->. by apply Permutation_nil_r in Hperm. }
  rewrite (format_outline_of_lessons _ _ _ _ Hloads1 Hdec1) by done.
  rewrite (format_outline_of_lessons _ _ _ _ Hloads2 Hdec2) by done.
  rewrite Hheader, <- (Permutation_length Hperm).
  assert (stable_sort le_lesson (l1 :: lessons1) = stable_sort le_lesson lessons2)
    as ->; [|done].
  apply (StronglySorted_unique_strong
           (fun a b : Lesson => lesson_number a <= lesson_number b)).
  - intros a b Ha Hb Hab Hba.
    apply (distinct_numbers_inj (l1 :: lessons1)); [done | | | lia].
    + by rewrite <- (stable_sort_perm le_lesson (l1 :: lessons1)).
    + by rewrite Hperm, <- (stable_sort_perm le_lesson lessons2).
  - apply stable_sort_sorted;
      [apply le_lesson_true | apply le_lesson_false | intros a b c; lia].
  - apply stable_sort_sorted;
      [apply le_lesson_true | apply le_lesson_false | intros a b c; lia].
  - by rewrite !stable_sort_perm.
Qed.

Lemma format_outline_order_independent_witness :
  let setup := {| lesson_number := 2; lesson_title := "Setup";
                  lesson_link := Some "https://example.com/l2" |} in
  let intro := {| lesson_number := 1; lesson_title := "Intro";
                  lesson_link := None |} in
  (exists items1 items2,
     sample_loads' (default "[]" (lessons_json mcp_course)) = Some (JArr items1) /\
     sample_loads' (default "[]" (lessons_json mcp_course_reordered)) =
       Some (JArr items2) /\
     mapM decode_lesson items1 = Some [setup; intro] /\
     mapM decode_lesson items2 = Some [intro; setup]) /\
  course_header mcp_course = course_header mcp_course_reordered /\
  Permutation [setup; intro] [intro; setup] /\
  NoDup (map lesson_number [setup; intro]) /\
  _format_outline sample_loads' mcp_course =
  _format_outline sample_loads' mcp_course_reordered.
Proof.
  intros setup intro.
  assert (NoDup (map lesson_number [setup; intro])) as Hnd.
  { apply NoDup_cons. split; [|apply NoDup_singleton].
    intros H%list_elem_of_singleton. discriminate. }
  split; [do 2 eexists; repeat split; reflexivity |].
  split; [reflexivity |].
  split; [apply perm_swap |].
  split; [exact Hnd |].
  eapply (format_outline_order_independent sample_loads' mcp_course
            mcp_course_reordered _ _ [setup; intro] [intro; setup]);
    [reflexivity | reflexivity | reflexivity | reflexivity | reflexivity
    | apply perm_swap | exact Hnd].
Defined.

(** ** CourseOutlineTool.execute *)

(** X17: an exception of [_format_outline] does not escape from
    [CourseOutlineTool.execute].  When the lesson list of the resolved
    course is JSON of the wrong shape (a truthy value that is no list, or a
    list with an element that is no object), [execute] answers with
    [Error retrieving course outline: ] followed by the text of the
    [TypeError] or [AttributeError] that [_format_outline] raised. *)
Theorem outline_execute_catches_format_errors
    (json_loads : string -> option json) (exn_text : exn -> string)
    (self : CourseOutlineTool) (course_name resolved : string)
    (metadata : CourseMeta) (rest : list (option CourseMeta)) (v : json) :
  _resolve_course_name (outline_store self) course_name = Some resolved ->
  resolved <> "" ->
  course_catalog_get (outline_store self) resolved =
    GetMetadatas (Some metadata :: rest) ->
  json_loads (default "[]" (lessons_json metadata)) = Some v ->
  truthy v = true ->
  (forall items, v = JArr items ->
     exists item, item ∈ items /\ forall d, item <> JObj d) ->
  CourseOutlineTool_execute json_loads exn_text self course_name =
  Return ("Error retrieving course outline: " +:+
          exn_text match v with
                   | JArr _ | JStr _ | JObj _ => AttributeError
                   | _ => TypeError
                   end).
Proof.
  intros Hres Hne Hget Hloads Htruthy Hitems.
  assert (_format_outline json_loads metadata =
          Raise match v with
                | JArr _ | JStr _ | JObj _ => AttributeError
                | _ => TypeError
                end) as Hraise.
  { unfold _format_outline, lessons_section. rewrite Hloads, Htruthy.
    destruct v as [| b | n | s | items | fields]; try done.
    unfold sorted_lessons. by rewrite all_dicts_raises by eauto. }
  unfold CourseOutlineTool_execute. rewrite Hres.
  destruct resolved as [|ch resolved]; [done |]. simpl.
  by rewrite Hget, Hraise.
Qed.

Lemma outline_execute_catches_format_errors_witness :
  let tool := {| outline_store := odd_catalog |} in
  _resolve_course_name (outline_store tool) "anything" = Some "Odd" /\
  "Odd" <> "" /\
  course_catalog_get (outline_store tool) "Odd" = GetMetadatas [Some odd_course] /\
  sample_loads' (default "[]" (lessons_json odd_course)) = Some (JArr [JInt 7]) /\
  truthy (JArr [JInt 7]) = true /\
  (forall items, JArr [JInt 7] = JArr items ->
     exists item, item ∈ items /\ forall d, item <> JObj d) /\
  CourseOutlineTool_execute sample_loads' sample_exn_text tool "anything" =
  Return "Error retrieving course outline: attribute error".
Proof.
  intros tool.
  assert (forall items, JArr [JInt 7] = JArr items ->
            exists item, item ∈ items /\ forall d, item <> JObj d) as Hitems.
  { intros items [= <-]. exists (JInt 7).
    split; [apply list_elem_of_here | discriminate]. }
  split; [reflexivity |].
  split; [discriminate |].
  split; [reflexivity |].
  split; [reflexivity |].
  split; [reflexivity |].
  split; [exact Hitems |].
  apply (outline_execute_catches_format_errors sample_loads' sample_exn_text
           tool "anything" "Odd" odd_course [] (JArr [JInt 7]));
    [reflexivity | discriminate | reflexivity | reflexivity | reflexivity
    | exact Hitems].
Defined.

(** The messages of [CourseOutlineTool.execute].  A name that does not
    resolve gives [No course found matching '<name>']; a catalog failure
    gives [Error retrieving course outline: ] and its message; and an
    exception of [_format_outline] is answered the same way, with the text
    of the exception. *)
Theorem outline_execute_answers
    (json_loads : string -> option json) (exn_text : exn -> string)
    (self : CourseOutlineTool) (course_name : string) :
  (_resolve_course_name (outline_store self) course_name = None \/
   _resolve_course_name (outline_store self) course_name = Some "" ->
   CourseOutlineTool_execute json_loads exn_text self course_name =
   Return ("No course found matching '" +:+ course_name +:+ "'")) /\
  (forall resolved message,
     _resolve_course_name (outline_store self) course_name = Some resolved ->
     resolved <> "" ->
     course_catalog_get (outline_store self) resolved = GetRaises message ->
     CourseOutlineTool_execute json_loads exn_text self course_name =
     Return ("Error retrieving course outline: " +:+ message)) /\
  (forall resolved metadata rest e,
     _resolve_course_name (outline_store self) course_name = Some resolved ->
     resolved <> "" ->
     course_catalog_get (outline_store self) resolved =
       GetMetadatas (Some metadata :: rest) ->
     _format_outline json_loads metadata = Raise e ->
     CourseOutlineTool_execute json_loads exn_text self course_name =
     Return ("Error retrieving course outline: " +:+ exn_text e)).
Proof.
  unfold CourseOutlineTool_execute. repeat split.
  - by intros [-> | ->].
  - intros resolved message -> Hne Hget.
    destruct resolved as [|ch resolved]; [done |]. simpl. by rewrite Hget.
  - intros resolved metadata rest e -> Hne Hget Hraise.
    destruct resolved as [|ch resolved]; [done |]. simpl.
    by rewrite Hget, Hraise.
Qed.

Lemma outline_execute_answers_witness :
  let tool := {| outline_store := sample_catalog |} in
  CourseOutlineTool_execute sample_loads' sample_exn_text tool "cooking" =
    Return "No course found matching 'cooking'" /\
  CourseOutlineTool_execute sample_loads' sample_exn_text tool "lost" =
    Return "Error retrieving course outline: connection lost".
Proof.
  intros tool. split.
  - apply (outline_execute_answers sample_loads' sample_exn_text tool "cooking").
    left. reflexivity.
  - apply (proj1 (proj2 (outline_execute_answers sample_loads' sample_exn_text
                           tool "lost")) "Lost Course" "connection lost");
      [reflexivity | discriminate | reflexivity].
Defined.

(** X18: a catalog entry whose lesson list is not JSON does not make the
    outline fail: [execute] answers with the header lines of the course and
    [No lesson information available.]. *)
Theorem outline_execute_degrades
    (json_loads : string -> option json) (exn_text : exn -> string)
    (self : CourseOutlineTool) (course_name resolved : string)
    (metadata : CourseMeta) (rest : list (option CourseMeta)) :
  _resolve_course_name (outline_store self) course_name = Some resolved ->
  resolved <> "" ->
  course_catalog_get (outline_store self) resolved =
    GetMetadatas (Some metadata :: rest) ->
  json_loads (default "[]" (lessons_json metadata)) = None ->
  CourseOutlineTool_execute json_loads exn_text self course_name =
  Return (String.concat LF
            (course_header metadata ++ [LF +:+ "No lesson information available."])).
Proof.
  intros Hres Hne Hget Hloads. unfold CourseOutlineTool_execute.
  rewrite Hres. destruct resolved as [|ch resolved]; [done |]. simpl.
  rewrite Hget. unfold _format_outline. by rewrite Hloads.
Qed.

Lemma outline_execute_degrades_witness :
  let tool := {| outline_store := sample_catalog |} in
  _resolve_course_name (outline_store tool) "web" = Some "Web Dev" /\
  "Web Dev" <> "" /\
  course_catalog_get (outline_store tool) "Web Dev" =
    GetMetadatas [Some broken_course] /\
  sample_loads' (default "[]" (lessons_json broken_course)) = None /\
  CourseOutlineTool_execute sample_loads' sample_exn_text tool "web" =
  Return (String.concat LF
            (course_header broken_course ++
             [LF +:+ "No lesson information available."])).
Proof.
  intros tool.
  split; [reflexivity |].
  split; [discriminate |].
  split; [reflexivity |].
  split; [reflexivity |].
  apply (outline_execute_degrades sample_loads' sample_exn_text tool "web"
           "Web Dev" broken_course []); [reflexivity | discriminate
                                         | reflexivity | reflexivity].
Defined.

Example outline_execute_mcp :
  CourseOutlineTool_execute sample_loads' sample_exn_text
    {| outline_store := sample_catalog |} "MCP" =
  _format_outline sample_loads mcp_course.
Proof. reflexivity. Qed.

(** ** Registration followed by dispatch *)

(** X19: a tool that was registered is reached under the name of its
    definition: after a successful [register_tool], [execute_tool] with
    that name, and keyword arguments that do not collide with its own
    parameters, runs the [execute] of this very tool on the arguments,
    never answering that the tool was not found. *)
Theorem register_then_execute
    (h : gmap nat tool_obj) (self self' : ToolManager) (tool : nat)
    (kwargs : list (string * json)) :
  register_tool h self tool = Return self' ->
  collides kwargs = false ->
  exists (o : tool_obj) (name : string),
    h !! tool = Some o /\
    dict_get (obj_definition o) "name" = Some (JStr name) /\
    execute_tool h self' name kwargs =
      ((obj_execute o kwargs).1, <[tool := (obj_execute o kwargs).2]> h).
Proof.
  intros (o & name & Ho & Hname & _ & Htools)%register_tool_Return Hfree.
  exists o, name. split; [done |]. split; [done |].
  rewrite execute_tool_binding by done.
  rewrite Htools, dict_get_set_eq, Ho.
  by destruct (obj_execute o kwargs).
Qed.

Lemma register_then_execute_witness :
  register_tool sample_heap sample_manager 3%nat =
    Return {| tools := [("search_course_content", 3%nat);
                        ("get_course_outline", 1%nat)] |} /\
  collides [("query", JStr "mcp")] = false /\
  exists (o : tool_obj) (name : string),
    sample_heap !! 3%nat = Some o /\
    dict_get (obj_definition o) "name" = Some (JStr name) /\
    execute_tool sample_heap
      {| tools := [("search_course_content", 3%nat);
                   ("get_course_outline", 1%nat)] |} name [("query", JStr "mcp")] =
      ((obj_execute o [("query", JStr "mcp")]).1,
       <[3%nat := (obj_execute o [("query", JStr "mcp")]).2]> sample_heap).
Proof.
  split; [reflexivity |].
  split; [reflexivity |].
  apply (register_then_execute sample_heap sample_manager
           {| tools := [("search_course_content", 3%nat);
                        ("get_course_outline", 1%nat)] |} 3%nat
           [("query", JStr "mcp")]); reflexivity.
Defined.
